(** * Exchange wrappers of gocryptotrader: ItBit and HuobiHadax

    A shallow embedding of [exchanges/itbit/itbit_wrapper.go] and of the
    HuobiHadax wrapper, with the properties of the adapter layer that the
    specification states about them.

    Conventions of the embedding.
    - A Go [float64] is a binary64 value of [SpecFloat.spec_float]
      (precision 53, [emax] 1024); comparisons are the IEEE ones.
    - A Go [string] is a [string]; a slice is a [list] ([nil] is [[]]).
    - A Go result [(v, err)] is a pair [(v, option error)], [None] being
      the [nil] error.
    - The process-wide state (the ticker store, the order-book store, the
      standard logger) and the traffic sent to the venue are the fields of
      a record [World] threaded through every wrapper method.
    - A REST binding appends its request to [calls] and returns the
      venue's answer, a function of the requests the venue has seen so far
      and of the request itself. *)

From Stdlib Require Import ZArith String Ascii List Bool Lia.
From Stdlib Require Import SpecFloat.
From stdpp Require Import base option list strings gmap pretty.

Local Open Scope string_scope.
Local Open Scope list_scope.
Local Open Scope Z_scope.

(** ** float64 *)

Module float64.

Definition prec : Z := 53.
Definition emax : Z := 1024.

Definition t : Type := spec_float.

(** The zero value of a [float64] variable. *)
Definition zero : t := S754_zero false.

(** Go's [a >= b]; the comparison of [SpecFloat] is the IEEE one on
    the canonical values, which are the ones [of_ratio] builds. *)
Definition ge (a b : t) : bool := SFleb b a.

(** The binary64 value nearest to [(-1)^neg * n / d] (ties to even),
    an infinity when the rounded value is out of range.  [d] is
    positive. *)
Definition of_ratio (neg : bool) (n d : Z) : t :=
  let s := Z.max 0 (Z.log2 d + 2 + prec + 2 - Z.log2 n) in
  let q := Z.shiftl n s / d in
  let r := Z.shiftl n s mod d in
  let l := if r =? 0 then loc_Exact else loc_Inexact (2 * r ?= d) in
  binary_round_aux prec emax neg q (- s) l.

(** An integer as a [float64] (exact below 2^53). *)
Definition of_Z (z : Z) : t := of_ratio (z <? 0) (Z.abs z) 1.

End float64.

Abbreviation float64 := float64.t.

(** ** Errors

    [ErrFunctionNotSupported] and [ErrNotYetImplemented] are the two
    sentinel values of package [common]; [ErrorString] is an
    [errors.New]; [Errorf] is a [fmt.Errorf] kept with its format and its
    operands; [NumError] is a [*strconv.NumError]; [VenueError] is
    whatever error a REST binding hands back. *)

Inductive numerr := ErrSyntax | ErrRange.

Inductive fmtarg :=
| ArgString (s : string)
| ArgFloat (f : float64).

Inductive error :=
| ErrFunctionNotSupported
| ErrNotYetImplemented
| ErrorString (msg : string)
| Errorf (format : string) (args : list fmtarg)
| NumError (fn num : string) (e : numerr)
| VenueError (msg : string).

(** ** Package strconv

    [ParseInt s 0 64] and [ParseFloat s 64] as the wrappers call them:
    base prefixes [0b], [0o], [0x], the underscore as a digit separator,
    decimal and hexadecimal floating-point literals, the infinities and
    NaN. *)

Module strconv.

Definition syntaxError (fn s : string) : error := NumError fn s ErrSyntax.
Definition rangeError (fn s : string) : error := NumError fn s ErrRange.

Definition between (lo hi c : ascii) : bool :=
  ((N_of_ascii lo <=? N_of_ascii c) && (N_of_ascii c <=? N_of_ascii hi))%N.

(** [lower(c)] is [c | ('x' - 'X')]: a letter becomes its lower-case
    form. *)
Definition lower (c : ascii) : ascii := ascii_of_N (N.lor (N_of_ascii c) 32).

(** The value of [c] as a digit of a base up to 36. *)
Definition digit (c : ascii) : option Z :=
  if between "0" "9" c then Some (Z.of_N (N_of_ascii c - N_of_ascii "0"))
  else if between "a" "z" (lower c)
  then Some (Z.of_N (N_of_ascii (lower c) - N_of_ascii "a") + 10)
  else None.

Definition maxUint64 : Z := 2 ^ 64 - 1.

(** The last character seen by [underscoreOK]: nothing yet, a digit (or
    a base prefix), an underscore, anything else. *)
Inductive seen := SawNothing | SawDigit | SawUnderscore | SawOther.

(** The loop of [underscoreOK]: an underscore must follow a digit and
    be followed by one. *)
Fixpoint underscoreLoop (hex : bool) (s : string) (saw : seen) : bool :=
  match s with
  | EmptyString => match saw with SawUnderscore => false | _ => true end
  | String c s' =>
      if (between "0" "9" c || (hex && between "a" "f" (lower c)))%bool
      then underscoreLoop hex s' SawDigit
      else if Ascii.eqb c "_" then
        match saw with
        | SawDigit => underscoreLoop hex s' SawUnderscore
        | _ => false
        end
      else
        match saw with
        | SawUnderscore => false
        | _ => underscoreLoop hex s' SawOther
        end
  end.

(** [underscoreOK(s)]: the underscores of [s] stand only between digits
    or between a base prefix and a digit. *)
Definition underscoreOK (s : string) : bool :=
  let s1 :=
    match s with
    | String c s' => if (Ascii.eqb c "-" || Ascii.eqb c "+")%bool then s' else s
    | EmptyString => s
    end in
  match s1 with
  | String z (String x s') =>
      if (Ascii.eqb z "0"
          && (Ascii.eqb (lower x) "b" || Ascii.eqb (lower x) "o"
              || Ascii.eqb (lower x) "x"))%bool
      then underscoreLoop (Ascii.eqb (lower x) "x") s' SawDigit
      else underscoreLoop false s1 SawNothing
  | _ => underscoreLoop false s1 SawNothing
  end.

(** The digit loop of [ParseUint]: [n] is the value so far and
    [underscores] tells whether an underscore was skipped, which the
    loop does only when the base was left to the prefix ([base0]).  The
    result is the value, the kind of failure, if any, and the flag. *)
Fixpoint parseDigits (base0 : bool) (base : Z) (s : string) (n : Z)
    (underscores : bool) : Z * option numerr * bool :=
  match s with
  | EmptyString => (n, None, underscores)
  | String c s' =>
      if (Ascii.eqb c "_" && base0)%bool then parseDigits base0 base s' n true
      else
        match digit c with
        | None => (0, Some ErrSyntax, underscores)
        | Some d =>
            if base <=? d then (0, Some ErrSyntax, underscores)
            else if maxUint64 / base + 1 <=? n then (maxUint64, Some ErrRange, underscores)
            else
              let n1 := n * base + d in
              if maxUint64 <? n1 then (maxUint64, Some ErrRange, underscores)
              else parseDigits base0 base s' n1 underscores
        end
  end.

(** The base and the digits of [s] when the base is left to the
    prefix: a prefix counts only when a character follows it. *)
Definition splitPrefix (s : string) : Z * string :=
  match s with
  | String z s1 =>
      if Ascii.eqb z "0" then
        match s1 with
        | String x (String y s3) =>
            if Ascii.eqb (lower x) "b" then (2, String y s3)
            else if Ascii.eqb (lower x) "o" then (8, String y s3)
            else if Ascii.eqb (lower x) "x" then (16, String y s3)
            else (8, s1)
        | _ => (8, s1)
        end
      else (10, s)
  | EmptyString => (10, s)
  end.

(** [ParseUint s 0 64], without the [NumError] wrapping. *)
Definition parseUint0 (s0 : string) : Z * option numerr :=
  match s0 with
  | EmptyString => (0, Some ErrSyntax)
  | _ =>
      let '(base, s) := splitPrefix s0 in
      match parseDigits true base s 0 false with
      | (n, Some e, _) => (n, Some e)
      | (n, None, underscores) =>
          if (underscores && negb (underscoreOK s0))%bool
          then (0, Some ErrSyntax)
          else (n, None)
      end
  end.

(** [strconv.ParseInt(s, 0, 64)]. *)
Definition ParseInt (s0 : string) : Z * option error :=
  match s0 with
  | EmptyString => (0, Some (syntaxError "ParseInt" s0))
  | String c s' =>
      let neg := Ascii.eqb c "-" in
      let s := if (Ascii.eqb c "+" || neg)%bool then s' else s0 in
      let cutoff := 2 ^ 63 in
      match parseUint0 s with
      | (_, Some ErrSyntax) => (0, Some (syntaxError "ParseInt" s0))
      | (un, _) =>
          if (negb neg && (cutoff <=? un))%bool
          then (cutoff - 1, Some (rangeError "ParseInt" s0))
          else if (neg && (cutoff <? un))%bool
          then (- cutoff, Some (rangeError "ParseInt" s0))
          else ((if neg then - un else un), None)
      end
  end.

(** *** ParseFloat *)

(** The lower-case form of an upper-case ASCII letter, as
    [commonPrefixLenIgnoreCase] and [strings.ToLower] compute it. *)
Definition asciiLower (c : ascii) : ascii :=
  if between "A" "Z" c then ascii_of_N (N_of_ascii c + 32) else c.

Fixpoint lowerString (s : string) : string :=
  match s with
  | EmptyString => EmptyString
  | String c s' => String (asciiLower c) (lowerString s')
  end.

(** The spellings of the infinities and of NaN that make a whole
    input. *)
Definition special (s : string) : option float64 :=
  let l := lowerString s in
  if (String.eqb l "inf" || String.eqb l "infinity"
      || String.eqb l "+inf" || String.eqb l "+infinity")%bool
  then Some (S754_infinity false)
  else if (String.eqb l "-inf" || String.eqb l "-infinity")%bool
  then Some (S754_infinity true)
  else if String.eqb l "nan" then Some S754_nan
  else None.

(** The digits of the mantissa, in base 10 or 16, with underscores
    skipped and at most one point: the digits read as an integer, how
    many of them follow the point, whether a digit and whether a point
    were seen, and the rest of the input, which starts at the first
    character that is none of these or at a second point. *)
Fixpoint readMantissa (hex : bool) (s : string) (m frac : Z) (sawdot sawdigits : bool)
  : Z * Z * bool * string :=
  match s with
  | EmptyString => (m, frac, sawdigits, s)
  | String c s' =>
      if Ascii.eqb c "_" then readMantissa hex s' m frac sawdot sawdigits
      else if Ascii.eqb c "." then
        if sawdot then (m, frac, sawdigits, s)
        else readMantissa hex s' m frac true sawdigits
      else if between "0" "9" c then
        readMantissa hex s'
          (m * (if hex then 16 else 10) + Z.of_N (N_of_ascii c - N_of_ascii "0"))
          (if sawdot then frac + 1 else frac) sawdot true
      else if (hex && between "a" "f" (lower c))%bool then
        readMantissa hex s'
          (m * 16 + Z.of_N (N_of_ascii (lower c) - N_of_ascii "a") + 10)
          (if sawdot then frac + 1 else frac) sawdot true
      else (m, frac, sawdigits, s)
  end.

(** The digits of the exponent, with underscores skipped; it stops
    growing from 10000 on. *)
Fixpoint readExponent (s : string) (e : Z) : Z * string :=
  match s with
  | EmptyString => (e, s)
  | String c s' =>
      if Ascii.eqb c "_" then readExponent s' e
      else if between "0" "9" c then
        readExponent s'
          (if e <? 10000 then e * 10 + Z.of_N (N_of_ascii c - N_of_ascii "0") else e)
      else (e, s)
  end.

(** A literal that makes the whole input: the sign, whether it is
    hexadecimal, the mantissa and the exponent, of 10 or, for a
    hexadecimal literal, of 2; [(neg, false, m, e)] stands for
    [(-1)^neg * m * 10^e] and [(neg, true, m, e)] for
    [(-1)^neg * m * 2^e].  A hexadecimal literal must have its
    exponent.  The underscores are checked by [underscoreOK], which
    accepts every input that has none. *)
Definition readFloat (s : string) : option (bool * bool * Z * Z) :=
  match s with
  | EmptyString => None
  | String c s' =>
      let neg := Ascii.eqb c "-" in
      let s1 := if (Ascii.eqb c "+" || neg)%bool then s' else s in
      let '(hex, s2) :=
        match s1 with
        | String z (String x (String y s3)) =>
            if (Ascii.eqb z "0" && Ascii.eqb (lower x) "x")%bool
            then (true, String y s3) else (false, s1)
        | _ => (false, s1)
        end in
      let '(m, frac, sawdigits, rest) := readMantissa hex s2 0 0 false false in
      let scale := if hex then 4 else 1 in
      if negb sawdigits then None else
      match rest with
      | EmptyString =>
          if (hex || negb (underscoreOK s))%bool then None
          else Some (neg, hex, m, - frac)
      | String x r =>
          if Ascii.eqb (lower x) (if hex then "p" else "e")%char then
            match r with
            | EmptyString => None
            | String y r' =>
                let eneg := Ascii.eqb y "-" in
                let r1 := if (Ascii.eqb y "+" || eneg)%bool then r' else r in
                match r1 with
                | EmptyString => None
                | String z _ =>
                    if negb (between "0" "9" z) then None else
                    match readExponent r1 0 with
                    | (e, EmptyString) =>
                        if underscoreOK s
                        then Some (neg, hex, m, (if eneg then - e else e) - scale * frac)
                        else None
                    | _ => None
                    end
                end
            end
          else None
      end
  end.

(** [strconv.ParseFloat(s, 64)]: an input that is not a literal gives
    0 and a syntax error; a literal that rounds beyond the largest
    float64 gives the infinity of its sign and a range error. *)
Definition ParseFloat (s : string) : float64 * option error :=
  match special s with
  | Some v => (v, None)
  | None =>
      match readFloat s with
      | None => (float64.zero, Some (syntaxError "ParseFloat" s))
      | Some (neg, hex, m, e) =>
          let b := if hex then 2 else 10 in
          let f := if m =? 0 then S754_zero neg
                   else if 0 <=? e then float64.of_ratio neg (m * b ^ e) 1
                   else float64.of_ratio neg m (b ^ (- e)) in
          match f with
          | S754_infinity _ => (f, Some (rangeError "ParseFloat" s))
          | _ => (f, None)
          end
      end
  end.

End strconv.


(** ** Packages pair, assets, exchange

    Their declarations are not among the sources; the records below keep
    the fields and the constants the two wrappers use. *)

Module pair.

Record CurrencyPair := {
  Delimiter : string;
  FirstCurrency : string;
  SecondCurrency : string
}.

Definition zero : CurrencyPair :=
  {| Delimiter := ""; FirstCurrency := ""; SecondCurrency := "" |}.

(** Modelled from the spec: [CurrencyPair.Pair] of package pair is
    missing; the canonical string form is base, delimiter, quote. *)
Definition Pair (p : CurrencyPair) : string :=
  FirstCurrency p +:+ Delimiter p +:+ SecondCurrency p.

End pair.

Module assets.
Definition AssetType : Type := string.
Definition AssetTypeSpot : AssetType := "spot".
End assets.

Module exchange.

(** [OrderSide] and [OrderType] are string types: a caller can pass
    any string, the named constants are only some of them. *)
Definition OrderSide : Type := string.
Definition OrderType : Type := string.

Definition Buy : OrderSide := "Buy".
Definition Sell : OrderSide := "Sell".
Definition Limit : OrderType := "Limit".
Definition Market : OrderType := "Market".

Definition ToString (s : string) : string := s.

Record SubmitOrderResponse := {
  IsOrderPlaced : bool;
  OrderID : string
}.

Definition zeroSubmitOrderResponse : SubmitOrderResponse :=
  {| IsOrderPlaced := false; OrderID := "" |}.

Record AccountCurrencyInfo := {
  CurrencyName : string;
  TotalValue : float64;
  Hold : float64
}.

Record AccountInfo := {
  ExchangeName : string;
  Currencies : list AccountCurrencyInfo
}.

Definition zeroAccountInfo : AccountInfo :=
  {| ExchangeName := ""; Currencies := [] |}.

Record FundHistory := { TransferID : string }.

(** The change a caller asks of [ModifyOrder]. *)
Record ModifyOrder := {
  modifyType : OrderType;
  modifySide : OrderSide;
  modifyPrice : float64;
  modifyAmount : float64
}.

(** The part of [exchange.Base] the wrappers read: the name, and the
    request format of the configuration that
    [exchange.FormatExchangeCurrency] applies to a pair. *)
Record Base := {
  Name : string;
  Verbose : bool;
  requestFormat : pair.CurrencyPair -> string
}.

Definition GetName (b : Base) : string := Name b.

Definition FormatExchangeCurrency (b : Base) (p : pair.CurrencyPair) : string :=
  requestFormat b p.

End exchange.

Module common.

(** [common.StringToLower], on the ASCII letters that currency codes
    are made of. *)
Definition StringToLower (s : string) : string := strconv.lowerString s.

End common.

(** ** The venue's API: requests and answers *)

Module itbitapi.

Record Ticker := {
  Ask : float64; Bid : float64; LastPrice : float64;
  High24h : float64; Low24h : float64; Volume24h : float64
}.

Record OrderbookResponse := {
  Bids : list (list string);
  Asks : list (list string)
}.

Record Balance := {
  Currency : string;
  AvailableBalance : float64;
  TotalBalance : float64
}.

Record Wallet := {
  ID : string;
  WalletName : string;
  Balances : list Balance
}.

(** The answer of [PlaceOrder]; [Order.ID] is the venue's identifier. *)
Module Order.
Record t := { ID : string; Status : string }.
Definition zero : t := {| ID := ""; Status := "" |}.
End Order.

(** The arguments of [PlaceOrder], in its order. *)
Record PlaceOrderArgs := {
  walletID : string; side : string; orderType : string;
  currency : string; amount : float64; price : float64;
  instrument : string; clientRef : string
}.

End itbitapi.

Module huobiapi.

Record DetailMerged := {
  Low : float64; Close : float64; Volume : float64; High : float64;
  Ask : list float64; Bid : list float64
}.

Definition SpotNewOrderRequestParamsType : Type := string.
Definition SpotNewOrderRequestTypeBuyMarket : SpotNewOrderRequestParamsType := "buy-market".
Definition SpotNewOrderRequestTypeSellMarket : SpotNewOrderRequestParamsType := "sell-market".
Definition SpotNewOrderRequestTypeBuyLimit : SpotNewOrderRequestParamsType := "buy-limit".
Definition SpotNewOrderRequestTypeSellLimit : SpotNewOrderRequestParamsType := "sell-limit".

(** [AccountID] is an [int], taken here as 64 bits wide. *)
Record SpotNewOrderRequestParams := {
  AccountID : Z;
  Amount : float64;
  Price : float64;
  Source : string;
  Symbol : string;
  Type_ : SpotNewOrderRequestParamsType
}.

End huobiapi.

(** A request sent to a venue. *)
Inductive call :=
| ItBitGetTicker (symbol : string)
| ItBitGetOrderbook (symbol : string)
| ItBitGetWallets
| ItBitPlaceOrder (args : itbitapi.PlaceOrderArgs)
| HuobiGetMarketDetailMerged (symbol : string)
| HuobiSpotNewOrder (params : huobiapi.SpotNewOrderRequestParams).

(** ** Packages ticker and orderbook: the stores *)

Module ticker.

Record Price := {
  Pair : pair.CurrencyPair;
  Last : float64; High : float64; Low : float64;
  Bid : float64; Ask : float64; Volume : float64
}.

Definition zero : Price :=
  {| Pair := pair.zero; Last := float64.zero; High := float64.zero;
     Low := float64.zero; Bid := float64.zero; Ask := float64.zero;
     Volume := float64.zero |}.

End ticker.

Module orderbook.

Record Item := { Amount : float64; Price : float64 }.

Record Base := { Bids : list Item; Asks : list Item }.

Definition zero : Base := {| Bids := []; Asks := [] |}.

End orderbook.

(** The key of a snapshot: venue, base, quote, asset class. *)
Definition key : Type := string * string * string * string.

Definition mkkey (venue : string) (p : pair.CurrencyPair) (a : assets.AssetType) : key :=
  (venue, pair.FirstCurrency p, pair.SecondCurrency p, a).

Record World := {
  tickers : gmap key ticker.Price;
  orderbooks : gmap key orderbook.Base;
  logged : list error;
  calls : list call
}.

Definition emptyWorld : World :=
  {| tickers := ∅; orderbooks := ∅; logged := []; calls := [] |}.

(** A method of a wrapper: it reads and changes the world. *)
Definition M (A : Type) : Type := World -> A * World.

#[global] Instance M_ret : MRet M := fun A (a : A) w => (a, w).
#[global] Instance M_bind : MBind M :=
  fun A B (k : A -> M B) (m : M A) w => let '(a, w') := m w in k a w'.

(** The world once the request [c] has gone out. *)
Definition sent (c : call) (w : World) : World :=
  {| tickers := tickers w; orderbooks := orderbooks w;
     logged := logged w; calls := calls w ++ [c] |}.

(** A request [c] goes out; the venue's answer may depend on all the
    requests it has received before. *)
Definition rest {A : Type} (c : call) (answer : list call -> A) : M A :=
  fun w => (answer (calls w), sent c w).

(** [log.Println(err)]. *)
Definition logPrintln (e : error) : M unit :=
  fun w =>
    (tt,
     {| tickers := tickers w; orderbooks := orderbooks w;
        logged := logged w ++ [e]; calls := calls w |}).

(** ** The market data cache *)

Module cache.

(** Modelled from the spec: [ticker.ProcessTicker] and
    [ticker.GetTicker] of package ticker are missing; the store holds
    one live snapshot per (venue, pair, asset class), a refresh
    overwrites it, and reading a key never stored is an error. *)
Definition ProcessTicker (venue : string) (p : pair.CurrencyPair)
    (t : ticker.Price) (a : assets.AssetType) : M unit :=
  fun w =>
    (tt,
     {| tickers := <[mkkey venue p a := t]> (tickers w);
        orderbooks := orderbooks w; logged := logged w; calls := calls w |}).

Definition GetTicker (venue : string) (p : pair.CurrencyPair)
    (a : assets.AssetType) : M (ticker.Price * option error) :=
  fun w =>
    match tickers w !! mkkey venue p a with
    | Some t => ((t, None), w)
    | None => ((ticker.zero, Some (ErrorString "ticker not found")), w)
    end.

(** Modelled from the spec: [orderbook.ProcessOrderbook] and
    [orderbook.GetOrderbook] of package orderbook are missing; the
    snapshot of a key is replaced wholesale on refresh, and reading a
    key never stored is an error. *)
Definition ProcessOrderbook (venue : string) (p : pair.CurrencyPair)
    (ob : orderbook.Base) (a : assets.AssetType) : M unit :=
  fun w =>
    (tt,
     {| tickers := tickers w;
        orderbooks := <[mkkey venue p a := ob]> (orderbooks w);
        logged := logged w; calls := calls w |}).

Definition GetOrderbook (venue : string) (p : pair.CurrencyPair)
    (a : assets.AssetType) : M (orderbook.Base * option error) :=
  fun w =>
    match orderbooks w !! mkkey venue p a with
    | Some ob => ((ob, None), w)
    | None => ((orderbook.zero, Some (ErrorString "orderbook not found")), w)
    end.

End cache.

(** ** The ItBit wrapper *)

Module ItBit.

Import itbitapi.

(** What the venue answers, given the requests it has seen so far. *)
Record Venue := {
  tickerAnswer : list call -> string -> Ticker * option error;
  orderbookAnswer : list call -> string -> OrderbookResponse * option error;
  walletsAnswer : list call -> list Wallet * option error;
  placeOrderAnswer : list call -> PlaceOrderArgs -> Order.t * option error
}.

Record t := {
  base : exchange.Base;
  venue : Venue
}.

Definition Name (i : t) : string := exchange.Name (base i).
Definition GetName (i : t) : string := exchange.GetName (base i).

(** *** The REST bindings (of itbit.go): one request each *)

Definition GetTicker (i : t) (symbol : string) : M (Ticker * option error) :=
  rest (ItBitGetTicker symbol) (fun h => tickerAnswer (venue i) h symbol).

Definition GetOrderbook (i : t) (symbol : string)
  : M (OrderbookResponse * option error) :=
  rest (ItBitGetOrderbook symbol) (fun h => orderbookAnswer (venue i) h symbol).

Definition GetWallets (i : t) : M (list Wallet * option error) :=
  rest ItBitGetWallets (walletsAnswer (venue i)).

Definition PlaceOrder (i : t) (walletID side orderType currency : string)
    (amount price : float64) (instrument clientRef : string)
  : M (Order.t * option error) :=
  let args := {| walletID := walletID; side := side; orderType := orderType;
                 currency := currency; amount := amount; price := price;
                 instrument := instrument; clientRef := clientRef |} in
  rest (ItBitPlaceOrder args) (fun h => placeOrderAnswer (venue i) h args).

(** *** The wrapper *)

Definition UpdateTicker (i : t) (p : pair.CurrencyPair) (assetType : assets.AssetType)
  : M (ticker.Price * option error) :=
  '(tick, err) ← GetTicker i (exchange.FormatExchangeCurrency (base i) p);
  match err with
  | Some e => mret (ticker.zero, Some e)
  | None =>
      let tickerPrice :=
        {| ticker.Pair := p;
           ticker.Ask := Ask tick;
           ticker.Bid := Bid tick;
           ticker.Last := LastPrice tick;
           ticker.High := High24h tick;
           ticker.Low := Low24h tick;
           ticker.Volume := Volume24h tick |} in
      _ ← cache.ProcessTicker (GetName i) p tickerPrice assetType;
      cache.GetTicker (Name i) p assetType
  end.

Definition FetchTicker (i : t) (p : pair.CurrencyPair) (assetType : assets.AssetType)
  : M (ticker.Price * option error) :=
  '(tickerNew, err) ← cache.GetTicker (GetName i) p assetType;
  match err with
  | Some _ => UpdateTicker i p assetType
  | None => mret (tickerNew, None)
  end.

(** One parsed field of a level: [strconv.ParseFloat] and, on an
    error, [log.Println(err)]; the value is kept either way. *)
Definition parseLogged (s : string) : M float64 :=
  let '(v, err) := strconv.ParseFloat s in
  match err with
  | Some e => _ ← logPrintln e; mret v
  | None => mret v
  end.

(** One of the two loops of [UpdateOrderbook] over the raw levels;
    [items] is the side built so far.  [None] is the run-time panic
    of [data[0]] or [data[1]] on a level with fewer than two
    strings. *)
Fixpoint appendLevels (raw : list (list string)) (items : list orderbook.Item)
    (w : World) : option (list orderbook.Item * World) :=
  match raw with
  | [] => Some (items, w)
  | data :: raw' =>
      match data !! 0%nat with
      | None => None
      | Some d0 =>
          let '(price, w1) := parseLogged d0 w in
          match data !! 1%nat with
          | None => None
          | Some d1 =>
              let '(amount, w2) := parseLogged d1 w1 in
              appendLevels raw'
                (items ++ [{| orderbook.Amount := amount; orderbook.Price := price |}])
                w2
          end
      end
  end.

Definition UpdateOrderbook (i : t) (p : pair.CurrencyPair) (assetType : assets.AssetType)
    (w : World) : option ((orderbook.Base * option error) * World) :=
  let '((orderbookNew, err), w1) :=
    GetOrderbook i (exchange.FormatExchangeCurrency (base i) p) w in
  match err with
  | Some e => Some ((orderbook.zero, Some e), w1)
  | None =>
      match appendLevels (Bids orderbookNew) [] w1 with
      | None => None
      | Some (bids, w2) =>
          match appendLevels (Asks orderbookNew) [] w2 with
          | None => None
          | Some (asks, w3) =>
              let orderBook := {| orderbook.Bids := bids; orderbook.Asks := asks |} in
              Some ((_ ← cache.ProcessOrderbook (GetName i) p orderBook assetType;
                     cache.GetOrderbook (Name i) p assetType) w3)
          end
      end
  end.

Definition FetchOrderbook (i : t) (p : pair.CurrencyPair) (assetType : assets.AssetType)
    (w : World) : option ((orderbook.Base * option error) * World) :=
  let '((ob, err), w1) := cache.GetOrderbook (GetName i) p assetType w in
  match err with
  | Some _ => UpdateOrderbook i p assetType w1
  | None => Some ((ob, None), w1)
  end.

Definition GetAccountInfo (i : t) : M (exchange.AccountInfo * option error) :=
  let response := exchange.zeroAccountInfo in
  let response := {| exchange.ExchangeName := GetName i;
                     exchange.Currencies := exchange.Currencies response |} in
  mret (response, None).

Definition GetFundingHistory (i : t) : M (list exchange.FundHistory * option error) :=
  let fundHistory : list exchange.FundHistory := [] in
  mret (fundHistory, Some ErrFunctionNotSupported).

(** The inner loop of the wallet search: [wallet] becomes [id] at
    every balance that has the currency and enough available. *)
Fixpoint scanBalances (id : string) (balances : list Balance)
    (cur : string) (amount : float64) (wallet : string) : string :=
  match balances with
  | [] => wallet
  | b :: balances' =>
      scanBalances id balances' cur amount
        (if (String.eqb (Currency b) cur
             && float64.ge (AvailableBalance b) amount)%bool
         then id else wallet)
  end.

(** The outer loop: all the wallets are visited, none ends it. *)
Fixpoint scanWallets (wallets : list Wallet) (cur : string)
    (amount : float64) (wallet : string) : string :=
  match wallets with
  | [] => wallet
  | w :: wallets' =>
      scanWallets wallets' cur amount
        (scanBalances (ID w) (Balances w) cur amount wallet)
  end.

Definition noWalletFormat : string :=
  "No wallet found with currency: %s with amount >= %v".

Definition SubmitOrder (i : t) (p : pair.CurrencyPair)
    (side : exchange.OrderSide) (orderType : exchange.OrderType)
    (amount price : float64) (clientID : string)
  : M (exchange.SubmitOrderResponse * option error) :=
  let submitOrderResponse := exchange.zeroSubmitOrderResponse in
  '(wallets, err) ← GetWallets i;
  match err with
  | Some e => mret (submitOrderResponse, Some e)
  | None =>
      let wallet := scanWallets wallets (pair.FirstCurrency p) amount "" in
      if String.eqb wallet "" then
        mret (submitOrderResponse,
              Some (Errorf noWalletFormat
                      [ArgString (pair.FirstCurrency p); ArgFloat amount]))
      else
        '(response, err) ← PlaceOrder i wallet (exchange.ToString side)
                             (exchange.ToString orderType) (pair.FirstCurrency p)
                             amount price (pair.Pair p) "";
        let submitOrderResponse :=
          if negb (String.eqb (Order.ID response) "")
          then {| exchange.IsOrderPlaced := exchange.IsOrderPlaced submitOrderResponse;
                  exchange.OrderID := Order.ID response |}
          else submitOrderResponse in
        let submitOrderResponse :=
          match err with
          | None => {| exchange.IsOrderPlaced := true;
                       exchange.OrderID := exchange.OrderID submitOrderResponse |}
          | Some _ => submitOrderResponse
          end in
        mret (submitOrderResponse, err)
  end.

Definition ModifyOrder (i : t) (orderID : Z) (action : exchange.ModifyOrder)
  : M (Z * option error) :=
  mret (0, Some ErrNotYetImplemented).

Definition CancelAllOrders (i : t) : M (option error) :=
  mret (Some ErrNotYetImplemented).

End ItBit.

(** ** The HuobiHadax wrapper *)

Module HUOBIHADAX.

Import huobiapi.

Record Venue := {
  detailMergedAnswer : list call -> string -> DetailMerged * option error;
  spotNewOrderAnswer : list call -> SpotNewOrderRequestParams -> Z * option error
}.

Record t := {
  base : exchange.Base;
  venue : Venue
}.

Definition Name (h : t) : string := exchange.Name (base h).
Definition GetName (h : t) : string := exchange.GetName (base h).

(** *** The REST bindings (of huobihadax.go): one request each *)

Definition GetMarketDetailMerged (h : t) (symbol : string)
  : M (DetailMerged * option error) :=
  rest (HuobiGetMarketDetailMerged symbol)
       (fun hist => detailMergedAnswer (venue h) hist symbol).

Definition SpotNewOrder (h : t) (params : SpotNewOrderRequestParams)
  : M (Z * option error) :=
  rest (HuobiSpotNewOrder params)
       (fun hist => spotNewOrderAnswer (venue h) hist params).

(** *** The wrapper *)

Definition UpdateTicker (h : t) (p : pair.CurrencyPair) (assetType : assets.AssetType)
  : M (ticker.Price * option error) :=
  '(tick, err) ← GetMarketDetailMerged h (exchange.FormatExchangeCurrency (base h) p);
  match err with
  | Some e => mret (ticker.zero, Some e)
  | None =>
      let tickerPrice :=
        {| ticker.Pair := p;
           ticker.Low := Low tick;
           ticker.Last := Close tick;
           ticker.Volume := Volume tick;
           ticker.High := High tick;
           ticker.Ask := match Ask tick with a :: _ => a | [] => float64.zero end;
           ticker.Bid := match Bid tick with b :: _ => b | [] => float64.zero end |} in
      _ ← cache.ProcessTicker (GetName h) p tickerPrice assetType;
      cache.GetTicker (Name h) p assetType
  end.

Definition FetchTicker (h : t) (p : pair.CurrencyPair) (assetType : assets.AssetType)
  : M (ticker.Price * option error) :=
  '(tickerNew, err) ← cache.GetTicker (GetName h) p assetType;
  match err with
  | Some _ => UpdateTicker h p assetType
  | None => mret (tickerNew, None)
  end.

Definition GetAccountInfo (h : t) : M (exchange.AccountInfo * option error) :=
  let response := exchange.zeroAccountInfo in
  let response := {| exchange.ExchangeName := GetName h;
                     exchange.Currencies := exchange.Currencies response |} in
  mret (response, None).

Definition GetFundingHistory (h : t) : M (list exchange.FundHistory * option error) :=
  let fundHistory : list exchange.FundHistory := [] in
  mret (fundHistory, Some ErrFunctionNotSupported).

Definition withPrice (params : SpotNewOrderRequestParams) (price : float64)
  : SpotNewOrderRequestParams :=
  {| AccountID := AccountID params; Amount := Amount params; Price := price;
     Source := Source params; Symbol := Symbol params; Type_ := Type_ params |}.

Definition withType (params : SpotNewOrderRequestParams)
    (ty : SpotNewOrderRequestParamsType) : SpotNewOrderRequestParams :=
  {| AccountID := AccountID params; Amount := Amount params; Price := Price params;
     Source := Source params; Symbol := Symbol params; Type_ := ty |}.

(** The chain of tests on (side, orderType): the venue's order type
    and the parameters, with the price on a limit order only; [None]
    is the last branch, which returns the error. *)
Definition formatType (side : exchange.OrderSide) (orderType : exchange.OrderType)
    (price : float64) (params : SpotNewOrderRequestParams)
  : option (SpotNewOrderRequestParamsType * SpotNewOrderRequestParams) :=
  if (String.eqb side exchange.Buy && String.eqb orderType exchange.Market)%bool
  then Some (SpotNewOrderRequestTypeBuyMarket, params)
  else if (String.eqb side exchange.Sell && String.eqb orderType exchange.Market)%bool
  then Some (SpotNewOrderRequestTypeSellMarket, params)
  else if (String.eqb side exchange.Buy && String.eqb orderType exchange.Limit)%bool
  then Some (SpotNewOrderRequestTypeBuyLimit, withPrice params price)
  else if (String.eqb side exchange.Sell && String.eqb orderType exchange.Limit)%bool
  then Some (SpotNewOrderRequestTypeSellLimit, withPrice params price)
  else None.

Definition SubmitOrder (h : t) (p : pair.CurrencyPair)
    (side : exchange.OrderSide) (orderType : exchange.OrderType)
    (amount price : float64) (clientID : string)
  : M (exchange.SubmitOrderResponse * option error) :=
  let submitOrderResponse := exchange.zeroSubmitOrderResponse in
  let '(accountID, _) := strconv.ParseInt clientID in
  let params :=
    {| Amount := amount;
       Source := "api";
       Symbol := common.StringToLower (pair.Pair p);
       AccountID := accountID;
       Price := float64.zero;
       Type_ := "" |} in
  match formatType side orderType price params with
  | None => mret (submitOrderResponse, Some (ErrorString "Unsupported order type"))
  | Some (formattedType, params) =>
      let params := withType params formattedType in
      '(response, err) ← SpotNewOrder h params;
      let submitOrderResponse :=
        if 0 <? response
        then {| exchange.IsOrderPlaced := exchange.IsOrderPlaced submitOrderResponse;
                exchange.OrderID := pretty response |}
        else submitOrderResponse in
      let submitOrderResponse :=
        match err with
        | None => {| exchange.IsOrderPlaced := true;
                     exchange.OrderID := exchange.OrderID submitOrderResponse |}
        | Some _ => submitOrderResponse
        end in
      mret (submitOrderResponse, err)
  end.

Definition ModifyOrder (h : t) (orderID : Z) (action : exchange.ModifyOrder)
  : M (Z * option error) :=
  mret (0, Some ErrNotYetImplemented).

Definition CancelAllOrders (h : t) : M (option error) :=
  mret (Some ErrNotYetImplemented).

End HUOBIHADAX.

(** ** Notions of the specification *)

(** The 2 x 2 matrix of the order normalizer: side in {buy, sell},
    order kind in {market, limit}. *)
Definition inMatrix (side : exchange.OrderSide) (orderType : exchange.OrderType) : bool :=
  ((String.eqb side exchange.Buy || String.eqb side exchange.Sell)
   && (String.eqb orderType exchange.Market || String.eqb orderType exchange.Limit))%bool.

(** A balance funds the order: it is in the base currency and has at
    least [amount] available. *)
Definition funds (cur : string) (amount : float64) (b : itbitapi.Balance) : bool :=
  (String.eqb (itbitapi.Currency b) cur
   && float64.ge (itbitapi.AvailableBalance b) amount)%bool.

(** A wallet qualifies when one of its balances funds the order. *)
Definition qualifies (cur : string) (amount : float64) (w : itbitapi.Wallet) : bool :=
  existsb (funds cur amount) (itbitapi.Balances w).

(** A raw level as the snapshot holds it: each field is the value
    [strconv.ParseFloat] returns for its string. *)
Definition level (data : list string) : orderbook.Item :=
  {| orderbook.Amount := fst (strconv.ParseFloat (data !!! 1%nat));
     orderbook.Price := fst (strconv.ParseFloat (data !!! 0%nat)) |}.

(** The lines a raw level leaves in the log: the conversion errors of
    its price and of its amount, in this order. *)
Definition levelErrors (data : list string) : list error :=
  match snd (strconv.ParseFloat (data !!! 0%nat)) with Some e => [e] | None => [] end
  ++ match snd (strconv.ParseFloat (data !!! 1%nat)) with Some e => [e] | None => [] end.

Definition isNil (err : option error) : bool :=
  match err with None => true | Some _ => false end.

(** The placement request of [ItBit.SubmitOrder] on the wallet
    [wallet]. *)
Definition placeArgs (wallet : string) (p : pair.CurrencyPair)
    (side : exchange.OrderSide) (orderType : exchange.OrderType)
    (amount price : float64) : itbitapi.PlaceOrderArgs :=
  {| itbitapi.walletID := wallet;
     itbitapi.side := side;
     itbitapi.orderType := orderType;
     itbitapi.currency := pair.FirstCurrency p;
     itbitapi.amount := amount;
     itbitapi.price := price;
     itbitapi.instrument := pair.Pair p;
     itbitapi.clientRef := "" |}.

(** The placement request of [HUOBIHADAX.SubmitOrder]. *)
Definition orderParams (p : pair.CurrencyPair) (accountID : Z)
    (amount price : float64) (ty : huobiapi.SpotNewOrderRequestParamsType)
  : huobiapi.SpotNewOrderRequestParams :=
  {| huobiapi.AccountID := accountID;
     huobiapi.Amount := amount;
     huobiapi.Price := price;
     huobiapi.Source := "api";
     huobiapi.Symbol := common.StringToLower (pair.Pair p);
     huobiapi.Type_ := ty |}.

(** The venue's order type of a pair of the matrix. *)
Definition nativeType (side : exchange.OrderSide) (orderType : exchange.OrderType)
  : huobiapi.SpotNewOrderRequestParamsType :=
  if String.eqb orderType exchange.Market
  then (if String.eqb side exchange.Buy
        then huobiapi.SpotNewOrderRequestTypeBuyMarket
        else huobiapi.SpotNewOrderRequestTypeSellMarket)
  else (if String.eqb side exchange.Buy
        then huobiapi.SpotNewOrderRequestTypeBuyLimit
        else huobiapi.SpotNewOrderRequestTypeSellLimit).

(** The world with the lines [es] added to the log. *)
Definition logAll (es : list error) (w : World) : World :=
  {| tickers := tickers w; orderbooks := orderbooks w;
     logged := logged w ++ es; calls := calls w |}.

(** ** Sample adapters and venues, for the concrete runs *)

Module Sample.

Import itbitapi.

Definition num (z : Z) : float64 := float64.of_Z z.
Definition half : float64 := float64.of_ratio false 1 2.

Definition btcusd : pair.CurrencyPair :=
  {| pair.Delimiter := ""; pair.FirstCurrency := "BTC"; pair.SecondCurrency := "USD" |}.

Definition config (name : string) : exchange.Base :=
  {| exchange.Name := name; exchange.Verbose := true;
     exchange.requestFormat := pair.Pair |}.

Definition btc (available : float64) : Balance :=
  {| Currency := "BTC"; AvailableBalance := available; TotalBalance := available |}.

Definition walletA : Wallet :=
  {| ID := "wallet-A"; WalletName := "first"; Balances := [btc (num 2)] |}.
Definition walletB : Wallet :=
  {| ID := "wallet-B"; WalletName := "second"; Balances := [btc (num 5)] |}.
Definition walletPoor : Wallet :=
  {| ID := "wallet-P"; WalletName := "poor"; Balances := [btc half] |}.

Definition quote : Ticker :=
  {| Ask := num 20001; Bid := num 19999; LastPrice := num 20000;
     High24h := num 20500; Low24h := num 19500; Volume24h := num 12 |}.

Definition depth : OrderbookResponse :=
  {| Bids := [["1e400"; "1"]; ["19999"; "2"]];
     Asks := [["abc"; "3"]; ["20001"; "0.5"]] |}.

(** A venue that holds two funded wallets and accepts every order. *)
Definition accepting : ItBit.Venue :=
  {| ItBit.tickerAnswer := fun _ _ => (quote, None);
     ItBit.orderbookAnswer := fun _ _ => (depth, None);
     ItBit.walletsAnswer := fun _ => ([walletA; walletB], None);
     ItBit.placeOrderAnswer := fun _ _ =>
       ({| Order.ID := "order-1"; Order.Status := "submitted" |}, None) |}.

(** A venue that answers a placement with an identifier and an error. *)
Definition rejecting : ItBit.Venue :=
  {| ItBit.tickerAnswer := fun _ _ => (quote, None);
     ItBit.orderbookAnswer := fun _ _ => (depth, None);
     ItBit.walletsAnswer := fun _ => ([walletA], None);
     ItBit.placeOrderAnswer := fun _ _ =>
       ({| Order.ID := "order-2"; Order.Status := "rejected" |},
        Some (VenueError "order rejected")) |}.

(** A venue whose only wallet holds half a coin. *)
Definition poor : ItBit.Venue :=
  {| ItBit.tickerAnswer := fun _ _ => (quote, None);
     ItBit.orderbookAnswer := fun _ _ => (depth, None);
     ItBit.walletsAnswer := fun _ => ([walletPoor], None);
     ItBit.placeOrderAnswer := fun _ _ =>
       ({| Order.ID := "order-3"; Order.Status := "submitted" |}, None) |}.

Definition itbit (v : ItBit.Venue) : ItBit.t :=
  {| ItBit.base := config "ITBIT"; ItBit.venue := v |}.

Definition merged : huobiapi.DetailMerged :=
  {| huobiapi.Low := num 19500; huobiapi.Close := num 20000;
     huobiapi.Volume := num 12; huobiapi.High := num 20500;
     huobiapi.Ask := []; huobiapi.Bid := [num 19999; num 3] |}.

(** A venue that numbers every accepted order 42. *)
Definition huobiAccepting : HUOBIHADAX.Venue :=
  {| HUOBIHADAX.detailMergedAnswer := fun _ _ => (merged, None);
     HUOBIHADAX.spotNewOrderAnswer := fun _ _ => (42, None) |}.

Definition huobiRejecting : HUOBIHADAX.Venue :=
  {| HUOBIHADAX.detailMergedAnswer := fun _ _ => (merged, None);
     HUOBIHADAX.spotNewOrderAnswer := fun _ _ =>
       (42, Some (VenueError "order rejected")) |}.

Definition huobi (v : HUOBIHADAX.Venue) : HUOBIHADAX.t :=
  {| HUOBIHADAX.base := config "HuobiHadax"; HUOBIHADAX.venue := v |}.

End Sample.

(** ** The other methods of the two wrappers

    The REST bindings these methods call ([GetSymbols], [GetDepth],
    [CancelExistingOrder]) and [UpdatePairs] of [exchange.Base] are not
    among the sources: each is a parameter, any action on the world
    with the result type of the call. *)

Module strconv10.

(** [ParseUint s 10 64], without the [NumError] wrapping. *)
Definition parseUint (s : string) : Z * option numerr :=
  match s with
  | EmptyString => (0, Some ErrSyntax)
  | _ => fst (strconv.parseDigits false 10 s 0 false)
  end.

(** [strconv.ParseInt(s, 10, 64)]. *)
Definition ParseInt (s0 : string) : Z * option error :=
  match s0 with
  | EmptyString => (0, Some (strconv.syntaxError "ParseInt" s0))
  | String c s' =>
      let neg := Ascii.eqb c "-" in
      let s := if (Ascii.eqb c "+" || neg)%bool then s' else s0 in
      let cutoff := 2 ^ 63 in
      match parseUint s with
      | (_, Some ErrSyntax) => (0, Some (strconv.syntaxError "ParseInt" s0))
      | (un, _) =>
          if (negb neg && (cutoff <=? un))%bool
          then (cutoff - 1, Some (strconv.rangeError "ParseInt" s0))
          else if (neg && (cutoff <? un))%bool
          then (- cutoff, Some (strconv.rangeError "ParseInt" s0))
          else ((if neg then - un else un), None)
      end
  end.

End strconv10.

Module cancellation.

(** The fields of [exchange.OrderCancellation] the wrappers read, and
    the account it names. *)
Record OrderCancellation := {
  AccountID : string;
  OrderID : string;
  WalletAddress : string
}.

End cancellation.

Module ItBitOps.

Section Bindings.

Context {TradeHistory OrderDetail Websocket : Type}.
Variable zeroOrderDetail : OrderDetail.
Variable CancelExistingOrder : string -> string -> M (option error).

Definition FetchTradablePairs (i : ItBit.t) : M (list string * option error) :=
  mret ([], Some ErrFunctionNotSupported).

Definition UpdateTradablePairs (i : ItBit.t) (forceUpdate : bool) : M (option error) :=
  mret (Some ErrFunctionNotSupported).

Definition GetExchangeHistory (i : ItBit.t) (p : pair.CurrencyPair)
    (assetType : assets.AssetType) : M (list TradeHistory * option error) :=
  let resp : list TradeHistory := [] in
  mret (resp, Some ErrNotYetImplemented).

Definition CancelOrder (i : ItBit.t) (order : cancellation.OrderCancellation)
  : M (option error) :=
  CancelExistingOrder (cancellation.WalletAddress order) (cancellation.OrderID order).

Definition GetOrderInfo (i : ItBit.t) (orderID : Z) : M (OrderDetail * option error) :=
  let orderDetail := zeroOrderDetail in
  mret (orderDetail, Some ErrNotYetImplemented).

Definition GetDepositAddress (i : ItBit.t) (cryptocurrency : string)
  : M (string * option error) :=
  mret ("", Some ErrNotYetImplemented).

Definition WithdrawCryptocurrencyFunds (i : ItBit.t) (address cryptocurrency : string)
    (amount : float64) : M (string * option error) :=
  mret ("", Some ErrNotYetImplemented).

Definition WithdrawFiatFunds (i : ItBit.t) (currency : string) (amount : float64)
  : M (string * option error) :=
  mret ("", Some ErrNotYetImplemented).

Definition WithdrawFiatFundsToInternationalBank (i : ItBit.t) (currency : string)
    (amount : float64) : M (string * option error) :=
  mret ("", Some ErrNotYetImplemented).

Definition GetWebsocket (i : ItBit.t) : M (option Websocket * option error) :=
  mret (None, Some ErrNotYetImplemented).

End Bindings.

End ItBitOps.

Module HuobiOps.

Record Symbol := {
  BaseCurrency : string;
  QuoteCurrency : string
}.

Record Orderbook := {
  Bids : list (list float64);
  Asks : list (list float64)
}.

Section Bindings.

Context {TradeHistory OrderDetail Websocket : Type}.
Variable zeroOrderDetail : OrderDetail.
Variable GetSymbols : M (list Symbol * option error).
Variable UpdatePairs : list string -> bool -> bool -> M (option error).
Variable GetDepth : string -> string -> M (Orderbook * option error).
Variable CancelExistingOrder : Z -> M (Z * option error).

(** The loop of [FetchTradablePairs]: one pair appended per symbol. *)
Fixpoint appendPairs (symbols : list Symbol) (pairs : list string) : list string :=
  match symbols with
  | [] => pairs
  | x :: symbols' =>
      appendPairs symbols' (pairs ++ [BaseCurrency x +:+ "-" +:+ QuoteCurrency x])
  end.

Definition FetchTradablePairs (h : HUOBIHADAX.t) : M (list string * option error) :=
  '(symbols, err) ← GetSymbols;
  match err with
  | Some e => mret ([], Some e)
  | None => mret (appendPairs symbols [], None)
  end.

Definition UpdateTradablePairs (h : HUOBIHADAX.t) (forceUpdate : bool)
  : M (option error) :=
  '(pairs, err) ← FetchTradablePairs h;
  match err with
  | Some e => mret (Some e)
  | None => UpdatePairs pairs false forceUpdate
  end.

(** One of the two loops of [UpdateOrderbook]; [None] is the run-time
    panic of [data[1]] or [data[0]] on a level with fewer than two
    numbers. *)
Fixpoint appendLevels (raw : list (list float64)) (items : list orderbook.Item)
  : option (list orderbook.Item) :=
  match raw with
  | [] => Some items
  | data :: raw' =>
      match data !! 1%nat, data !! 0%nat with
      | Some d1, Some d0 =>
          appendLevels raw'
            (items ++ [{| orderbook.Amount := d1; orderbook.Price := d0 |}])
      | _, _ => None
      end
  end.

Definition UpdateOrderbook (h : HUOBIHADAX.t) (p : pair.CurrencyPair)
    (assetType : assets.AssetType) (w : World)
  : option ((orderbook.Base * option error) * World) :=
  let '((orderbookNew, err), w1) :=
    GetDepth (exchange.FormatExchangeCurrency (HUOBIHADAX.base h) p) "step1" w in
  match err with
  | Some e => Some ((orderbook.zero, Some e), w1)
  | None =>
      match appendLevels (Bids orderbookNew) [] with
      | None => None
      | Some bids =>
          match appendLevels (Asks orderbookNew) [] with
          | None => None
          | Some asks =>
              let orderBook := {| orderbook.Bids := bids; orderbook.Asks := asks |} in
              Some ((_ ← cache.ProcessOrderbook (HUOBIHADAX.GetName h) p orderBook assetType;
                     cache.GetOrderbook (HUOBIHADAX.Name h) p assetType) w1)
          end
      end
  end.

Definition FetchOrderbook (h : HUOBIHADAX.t) (p : pair.CurrencyPair)
    (assetType : assets.AssetType) (w : World)
  : option ((orderbook.Base * option error) * World) :=
  let '((ob, err), w1) := cache.GetOrderbook (HUOBIHADAX.GetName h) p assetType w in
  match err with
  | Some _ => UpdateOrderbook h p assetType w1
  | None => Some ((ob, None), w1)
  end.

Definition GetExchangeHistory (h : HUOBIHADAX.t) (p : pair.CurrencyPair)
    (assetType : assets.AssetType) : M (list TradeHistory * option error) :=
  let resp : list TradeHistory := [] in
  mret (resp, Some ErrNotYetImplemented).

Definition CancelOrder (h : HUOBIHADAX.t) (order : cancellation.OrderCancellation)
  : M (option error) :=
  let '(orderIDInt, err) := strconv10.ParseInt (cancellation.OrderID order) in
  match err with
  | Some e => mret (Some e)
  | None =>
      '(_, err) ← CancelExistingOrder orderIDInt;
      mret err
  end.

Definition GetOrderInfo (h : HUOBIHADAX.t) (orderID : Z)
  : M (OrderDetail * option error) :=
  let orderDetail := zeroOrderDetail in
  mret (orderDetail, Some ErrNotYetImplemented).

Definition GetDepositAddress (h : HUOBIHADAX.t) (cryptocurrency : string)
  : M (string * option error) :=
  mret ("", Some ErrNotYetImplemented).

Definition WithdrawCryptocurrencyFunds (h : HUOBIHADAX.t)
    (address cryptocurrency : string) (amount : float64) : M (string * option error) :=
  mret ("", Some ErrNotYetImplemented).

Definition WithdrawFiatFunds (h : HUOBIHADAX.t) (currency : string) (amount : float64)
  : M (string * option error) :=
  mret ("", Some ErrNotYetImplemented).

Definition WithdrawFiatFundsToInternationalBank (h : HUOBIHADAX.t) (currency : string)
    (amount : float64) : M (string * option error) :=
  mret ("", Some ErrNotYetImplemented).

Definition GetWebsocket (h : HUOBIHADAX.t) : M (option Websocket * option error) :=
  mret (None, Some ErrNotYetImplemented).

End Bindings.

End HuobiOps.

(** A level of the HuobiHadax depth as the snapshot holds it: the
    price is the first number, the amount the second. *)
Definition huobiLevel (data : list float64) : orderbook.Item :=
  {| orderbook.Amount := default float64.zero (data !! 1%nat);
     orderbook.Price := default float64.zero (data !! 0%nat) |}.

(** Bindings for the concrete runs: a venue that lists two symbols, a
    configuration that accepts every pair list, a depth of two levels,
    and a cancellation that succeeds. *)
Module SampleOps.

Definition symbols : list HuobiOps.Symbol :=
  [ {| HuobiOps.BaseCurrency := "btc"; HuobiOps.QuoteCurrency := "usdt" |};
    {| HuobiOps.BaseCurrency := "eth"; HuobiOps.QuoteCurrency := "btc" |} ].

Definition GetSymbols : M (list HuobiOps.Symbol * option error) :=
  fun w => ((symbols, None), w).

Definition GetSymbolsDown : M (list HuobiOps.Symbol * option error) :=
  fun w => (([], Some (VenueError "timeout")), w).

Definition UpdatePairs (pairs : list string) (enabled force : bool) : M (option error) :=
  fun w => (None, w).

Definition depth : HuobiOps.Orderbook :=
  {| HuobiOps.Bids := [[Sample.num 19999; Sample.num 2]];
     HuobiOps.Asks := [[Sample.num 20001; Sample.half]; [Sample.num 20002; Sample.num 1]] |}.

Definition GetDepth (symbol step : string) : M (HuobiOps.Orderbook * option error) :=
  fun w => ((depth, None), w).

Definition GetDepthDown (symbol step : string) : M (HuobiOps.Orderbook * option error) :=
  fun w => (({| HuobiOps.Bids := []; HuobiOps.Asks := [] |},
             Some (VenueError "timeout")), w).

Definition CancelExistingOrder (orderID : Z) : M (Z * option error) :=
  fun w => ((orderID, None), w).

(** A venue whose ticker request fails. *)
Definition down : ItBit.Venue :=
  {| ItBit.tickerAnswer := fun _ _ => (Sample.quote, Some (VenueError "timeout"));
     ItBit.orderbookAnswer := fun _ _ => (Sample.depth, Some (VenueError "timeout"));
     ItBit.walletsAnswer := fun _ => ([], Some (VenueError "timeout"));
     ItBit.placeOrderAnswer := fun _ _ =>
       (itbitapi.Order.zero, Some (VenueError "timeout")) |}.

Definition huobiDown : HUOBIHADAX.Venue :=
  {| HUOBIHADAX.detailMergedAnswer := fun _ _ => (Sample.merged, Some (VenueError "timeout"));
     HUOBIHADAX.spotNewOrderAnswer := fun _ _ => (0, Some (VenueError "timeout")) |}.

(** The snapshot and the world that a refresh of the ItBit order book
    leaves, starting from the empty world and the accepting venue. *)
Definition itbitBook : orderbook.Base :=
  Eval vm_compute in
    match ItBit.UpdateOrderbook (Sample.itbit Sample.accepting) Sample.btcusd
            assets.AssetTypeSpot emptyWorld with
    | Some ((ob, _), _) => ob
    | None => orderbook.zero
    end.

Definition itbitWarm : World :=
  {| tickers := ∅;
     orderbooks := <[mkkey "ITBIT" Sample.btcusd assets.AssetTypeSpot := itbitBook]> ∅;
     logged := [strconv.rangeError "ParseFloat" "1e400";
                strconv.syntaxError "ParseFloat" "abc"];
     calls := [ItBitGetOrderbook "BTCUSD"] |}.

End SampleOps.

(** * Properties *)

(** ** strconv on small inputs *)

Example ParseFloat_half :
  strconv.ParseFloat "0.5" = (S754_finite false 4503599627370496 (-53), None).
Proof. vm_compute. reflexivity. Qed.

Example ParseFloat_tenth :
  strconv.ParseFloat "1e-1" = (S754_finite false 7205759403792794 (-56), None).
Proof. vm_compute. reflexivity. Qed.

Example ParseFloat_largest :
  strconv.ParseFloat "1.7976931348623157e308"
  = (S754_finite false 9007199254740991 971, None).
Proof. vm_compute. reflexivity. Qed.

Example ParseFloat_underflow :
  strconv.ParseFloat "2e-324" = (S754_zero false, None).
Proof. vm_compute. reflexivity. Qed.

Example ParseFloat_malformed :
  strconv.ParseFloat "12,5"
  = (S754_zero false, Some (NumError "ParseFloat" "12,5" ErrSyntax)).
Proof. vm_compute. reflexivity. Qed.

Example ParseFloat_too_large :
  strconv.ParseFloat "-1e400"
  = (S754_infinity true, Some (NumError "ParseFloat" "-1e400" ErrRange)).
Proof. vm_compute. reflexivity. Qed.

Example ParseFloat_hexadecimal :
  strconv.ParseFloat "0X1.8p1" = (S754_finite false 6755399441055744 (-51), None)
  /\ strconv.ParseFloat "0x1p-2" = (S754_finite false 4503599627370496 (-54), None).
Proof. split; vm_compute; reflexivity. Qed.

Example ParseFloat_separator :
  strconv.ParseFloat "1_000.5" = (S754_finite false 8800491068719104 (-43), None)
  /\ strconv.ParseFloat "1_0" = (S754_finite false 5629499534213120 (-49), None).
Proof. split; vm_compute; reflexivity. Qed.

Example ParseFloat_misplaced_separator :
  strconv.ParseFloat "1_" = (S754_zero false, Some (NumError "ParseFloat" "1_" ErrSyntax))
  /\ strconv.ParseFloat "1__0"
     = (S754_zero false, Some (NumError "ParseFloat" "1__0" ErrSyntax)).
Proof. split; vm_compute; reflexivity. Qed.

Example ParseFloat_hexadecimal_needs_exponent :
  strconv.ParseFloat "0x1e2"
  = (S754_zero false, Some (NumError "ParseFloat" "0x1e2" ErrSyntax)).
Proof. vm_compute. reflexivity. Qed.

Example ParseInt_prefixes :
  strconv.ParseInt "0b11" = (3, None)
  /\ strconv.ParseInt "0o17" = (15, None)
  /\ strconv.ParseInt "017" = (15, None)
  /\ strconv.ParseInt "-0X1f" = (-31, None).
Proof. repeat split; vm_compute; reflexivity. Qed.

Example ParseInt_separator :
  strconv.ParseInt "1_000" = (1000, None)
  /\ strconv.ParseInt "0x_1F" = (31, None).
Proof. split; vm_compute; reflexivity. Qed.

Example ParseInt_misplaced_separator :
  strconv.ParseInt "_1" = (0, Some (NumError "ParseInt" "_1" ErrSyntax))
  /\ strconv.ParseInt "1__0" = (0, Some (NumError "ParseInt" "1__0" ErrSyntax))
  /\ strconv.ParseInt "10_" = (0, Some (NumError "ParseInt" "10_" ErrSyntax)).
Proof. repeat split; vm_compute; reflexivity. Qed.

Example ParseInt_bare_prefix :
  strconv.ParseInt "0x" = (0, Some (NumError "ParseInt" "0x" ErrSyntax))
  /\ strconv.ParseInt "0b" = (0, Some (NumError "ParseInt" "0b" ErrSyntax)).
Proof. split; vm_compute; reflexivity. Qed.

(** An input without underscore passes [underscoreOK]. *)
Lemma underscoreLoop_without_underscore hex s :
  (forall c, In c (list_ascii_of_string s) -> c <> "_"%char) ->
  forall saw, saw <> strconv.SawUnderscore -> strconv.underscoreLoop hex s saw = true.
Proof.
  induction s as [|c s IH]; intros Hno saw Hsaw; cbn.
  - now destruct saw.
  - assert (Hc : Ascii.eqb c "_" = false)
      by (apply Ascii.eqb_neq; apply Hno; now left).
    assert (Hs : forall c', In c' (list_ascii_of_string s) -> c' <> "_"%char)
      by (intros c' Hin; apply Hno; now right).
    rewrite Hc.
    destruct (_ || _)%bool; [now apply IH|].
    destruct saw; try contradiction; now apply IH.
Qed.

Lemma underscoreOK_without_underscore s :
  (forall c, In c (list_ascii_of_string s) -> c <> "_"%char) ->
  strconv.underscoreOK s = true.
Proof.
  intros Hno. unfold strconv.underscoreOK.
  set (s1 := match s with
             | String c s' => if (Ascii.eqb c "-" || Ascii.eqb c "+")%bool then s' else s
             | EmptyString => s
             end).
  assert (H1 : forall c, In c (list_ascii_of_string s1) -> c <> "_"%char).
  { subst s1. destruct s as [|c s']; [exact Hno|].
    destruct (_ || _)%bool; [|exact Hno].
    intros c' Hin. apply Hno. now right. }
  clearbody s1.
  destruct s1 as [|z [|x s']];
    try (apply underscoreLoop_without_underscore; [exact H1|discriminate]).
  destruct (_ && _)%bool;
    apply underscoreLoop_without_underscore; try discriminate; try exact H1.
  intros c Hin. apply H1. right. now right.
Qed.

Example ParseInt_decimal : strconv.ParseInt "-12" = (-12, None).
Proof. reflexivity. Qed.

Example ParseInt_hexadecimal : strconv.ParseInt "0x1F" = (31, None).
Proof. reflexivity. Qed.

Example ParseInt_malformed :
  strconv.ParseInt "acct" = (0, Some (NumError "ParseInt" "acct" ErrSyntax)).
Proof. reflexivity. Qed.

Example ParseInt_too_large :
  strconv.ParseInt "9223372036854775808"
  = (9223372036854775807,
     Some (NumError "ParseInt" "9223372036854775808" ErrRange)).
Proof. vm_compute. reflexivity. Qed.

(** ** Capability errors and account information *)

(** C9. [GetAccountInfo] of both adapters succeeds in every state: the
    error is [nil], the account information carries the adapter's name
    and nothing else, and the world (so the list of requests sent) is
    left as it was. *)
Theorem GetAccountInfo_always_succeeds :
  (forall (i : ItBit.t) (w : World),
      ItBit.GetAccountInfo i w
      = (({| exchange.ExchangeName := ItBit.Name i; exchange.Currencies := [] |},
          None), w))
  /\ (forall (h : HUOBIHADAX.t) (w : World),
      HUOBIHADAX.GetAccountInfo h w
      = (({| exchange.ExchangeName := HUOBIHADAX.Name h; exchange.Currencies := [] |},
          None), w)).
Proof. split; intros; reflexivity. Qed.

(** C7, as the code has it. [ModifyOrder] and [CancelAllOrders] of both
    adapters return the not-yet-implemented error; [GetFundingHistory]
    of both adapters returns a nil slice with the function-not-supported
    error, which is of the other kind.  None of them sends a request. *)
Theorem unimplemented_operations :
  forall (i : ItBit.t) (h : HUOBIHADAX.t) (orderID : Z)
         (action : exchange.ModifyOrder) (w : World),
    ItBit.ModifyOrder i orderID action w = ((0, Some ErrNotYetImplemented), w)
    /\ HUOBIHADAX.ModifyOrder h orderID action w = ((0, Some ErrNotYetImplemented), w)
    /\ ItBit.CancelAllOrders i w = (Some ErrNotYetImplemented, w)
    /\ HUOBIHADAX.CancelAllOrders h w = (Some ErrNotYetImplemented, w)
    /\ ItBit.GetFundingHistory i w = (([], Some ErrFunctionNotSupported), w)
    /\ HUOBIHADAX.GetFundingHistory h w = (([], Some ErrFunctionNotSupported), w)
    /\ ErrFunctionNotSupported <> ErrNotYetImplemented.
Proof. intros. repeat split; discriminate. Qed.

(** C7 as stated fails: the error of [GetFundingHistory] is not the
    not-yet-implemented one, on either adapter. *)
Lemma GetFundingHistory_not_NotYetImplemented :
  snd (fst (ItBit.GetFundingHistory (Sample.itbit Sample.accepting) emptyWorld))
  <> Some ErrNotYetImplemented
  /\ snd (fst (HUOBIHADAX.GetFundingHistory (Sample.huobi Sample.huobiAccepting) emptyWorld))
     <> Some ErrNotYetImplemented.
Proof. split; discriminate. Qed.

(** ** The market data cache *)

Lemma cache_GetTicker_hit venue p a t w :
  tickers w !! mkkey venue p a = Some t ->
  cache.GetTicker venue p a w = ((t, None), w).
Proof. intros H. unfold cache.GetTicker. now rewrite H. Qed.

Lemma cache_GetTicker_miss venue p a w :
  tickers w !! mkkey venue p a = None ->
  exists e, cache.GetTicker venue p a w = ((ticker.zero, Some e), w).
Proof. intros H. unfold cache.GetTicker. rewrite H. eauto. Qed.

Lemma cache_GetTicker_world venue p a w :
  snd (cache.GetTicker venue p a w) = w.
Proof. unfold cache.GetTicker. now destruct (tickers w !! mkkey venue p a). Qed.

(** A refresh of the ItBit ticker sends exactly one request. *)
Lemma ItBit_UpdateTicker_calls i p a w :
  calls (snd (ItBit.UpdateTicker i p a w))
  = calls w ++ [ItBitGetTicker (exchange.FormatExchangeCurrency (ItBit.base i) p)].
Proof.
  unfold ItBit.UpdateTicker, ItBit.GetTicker, rest, mbind, M_bind.
  destruct (ItBit.tickerAnswer _ _ _) as [tick [e|]]; [reflexivity|].
  cbn [cache.ProcessTicker]. rewrite cache_GetTicker_world. reflexivity.
Qed.

Lemma HUOBIHADAX_UpdateTicker_calls h p a w :
  calls (snd (HUOBIHADAX.UpdateTicker h p a w))
  = calls w
    ++ [HuobiGetMarketDetailMerged (exchange.FormatExchangeCurrency (HUOBIHADAX.base h) p)].
Proof.
  unfold HUOBIHADAX.UpdateTicker, HUOBIHADAX.GetMarketDetailMerged, rest, mbind, M_bind.
  destruct (HUOBIHADAX.detailMergedAnswer _ _ _) as [tick [e|]]; [reflexivity|].
  cbn [cache.ProcessTicker]. rewrite cache_GetTicker_world. reflexivity.
Qed.

(** C2. On a miss [FetchTicker] is one [UpdateTicker]: it returns what
    [UpdateTicker] returns from the same world and leaves the world
    [UpdateTicker] leaves, in which exactly one request has been added;
    on a hit it returns the cached snapshot and the world, with its
    list of requests, is unchanged.  This holds for both adapters. *)
Theorem FetchTicker_fetch_or_refresh :
  forall (i : ItBit.t) (h : HUOBIHADAX.t) (p : pair.CurrencyPair)
         (a : assets.AssetType) (w : World),
    (tickers w !! mkkey (ItBit.Name i) p a = None ->
       ItBit.FetchTicker i p a w = ItBit.UpdateTicker i p a w
       /\ calls (snd (ItBit.FetchTicker i p a w))
          = calls w ++ [ItBitGetTicker (exchange.FormatExchangeCurrency (ItBit.base i) p)])
    /\ (forall t, tickers w !! mkkey (ItBit.Name i) p a = Some t ->
          ItBit.FetchTicker i p a w = ((t, None), w))
    /\ (tickers w !! mkkey (HUOBIHADAX.Name h) p a = None ->
          HUOBIHADAX.FetchTicker h p a w = HUOBIHADAX.UpdateTicker h p a w
          /\ calls (snd (HUOBIHADAX.FetchTicker h p a w))
             = calls w
               ++ [HuobiGetMarketDetailMerged
                     (exchange.FormatExchangeCurrency (HUOBIHADAX.base h) p)])
    /\ (forall t, tickers w !! mkkey (HUOBIHADAX.Name h) p a = Some t ->
          HUOBIHADAX.FetchTicker h p a w = ((t, None), w)).
Proof.
  intros i h p a w.
  assert (Hi : tickers w !! mkkey (ItBit.Name i) p a = None ->
               ItBit.FetchTicker i p a w = ItBit.UpdateTicker i p a w).
  { intros H. destruct (cache_GetTicker_miss _ _ _ _ H) as [e He].
    unfold ItBit.FetchTicker, mbind, M_bind, ItBit.GetName, exchange.GetName.
    unfold ItBit.Name in He. now rewrite He. }
  assert (Hh : tickers w !! mkkey (HUOBIHADAX.Name h) p a = None ->
               HUOBIHADAX.FetchTicker h p a w = HUOBIHADAX.UpdateTicker h p a w).
  { intros H. destruct (cache_GetTicker_miss _ _ _ _ H) as [e He].
    unfold HUOBIHADAX.FetchTicker, mbind, M_bind, HUOBIHADAX.GetName, exchange.GetName.
    unfold HUOBIHADAX.Name in He. now rewrite He. }
  split; [|split; [|split]].
  - intros H. split; [now apply Hi|].
    rewrite (Hi H). apply ItBit_UpdateTicker_calls.
  - intros t H.
    unfold ItBit.FetchTicker, mbind, M_bind, ItBit.GetName, exchange.GetName.
    unfold ItBit.Name in H. now rewrite (cache_GetTicker_hit _ _ _ _ _ H).
  - intros H. split; [now apply Hh|].
    rewrite (Hh H). apply HUOBIHADAX_UpdateTicker_calls.
  - intros t H.
    unfold HUOBIHADAX.FetchTicker, mbind, M_bind, HUOBIHADAX.GetName, exchange.GetName.
    unfold HUOBIHADAX.Name in H. now rewrite (cache_GetTicker_hit _ _ _ _ _ H).
Qed.

Lemma FetchTicker_fetch_or_refresh_witness :
  let i := Sample.itbit Sample.accepting in
  let h := Sample.huobi Sample.huobiAccepting in
  let cold := emptyWorld in
  let warm := snd (ItBit.UpdateTicker i Sample.btcusd assets.AssetTypeSpot cold) in
  (ItBit.FetchTicker i Sample.btcusd assets.AssetTypeSpot cold
   = ItBit.UpdateTicker i Sample.btcusd assets.AssetTypeSpot cold
   /\ calls (snd (ItBit.FetchTicker i Sample.btcusd assets.AssetTypeSpot cold))
      = [ItBitGetTicker "BTCUSD"])
  /\ (ItBit.FetchTicker i Sample.btcusd assets.AssetTypeSpot warm
      = (fst (ItBit.UpdateTicker i Sample.btcusd assets.AssetTypeSpot cold), warm))
  /\ HUOBIHADAX.FetchTicker h Sample.btcusd assets.AssetTypeSpot cold
     = HUOBIHADAX.UpdateTicker h Sample.btcusd assets.AssetTypeSpot cold.
Proof.
  intros i h cold warm.
  destruct (FetchTicker_fetch_or_refresh i h Sample.btcusd assets.AssetTypeSpot cold)
    as (Hmiss & _ & Hmiss' & _).
  destruct (FetchTicker_fetch_or_refresh i h Sample.btcusd assets.AssetTypeSpot warm)
    as (_ & Hhit & _ & _).
  split; [apply Hmiss; reflexivity|].
  split; [|apply Hmiss'; reflexivity].
  apply Hhit. vm_compute. reflexivity.
Defined.

(** ** Order submission: what the two wrappers compute *)

(** [ItBit.SubmitOrder], step by step: the wallets are requested; on
    an error it is returned; the wallet search runs; with no wallet
    the call fails; otherwise the placement request goes out and its
    answer makes the result. *)
Lemma ItBit_SubmitOrder_eq i p side ty amount price cid w :
  ItBit.SubmitOrder i p side ty amount price cid w
  = let w1 := sent ItBitGetWallets w in
    match ItBit.walletsAnswer (ItBit.venue i) (calls w) with
    | (_, Some e) => ((exchange.zeroSubmitOrderResponse, Some e), w1)
    | (wallets, None) =>
        let wallet := ItBit.scanWallets wallets (pair.FirstCurrency p) amount "" in
        if String.eqb wallet "" then
          ((exchange.zeroSubmitOrderResponse,
            Some (Errorf ItBit.noWalletFormat
                    [ArgString (pair.FirstCurrency p); ArgFloat amount])), w1)
        else
          let args := placeArgs wallet p side ty amount price in
          let '(response, err) := ItBit.placeOrderAnswer (ItBit.venue i) (calls w1) args in
          (({| exchange.IsOrderPlaced := isNil err;
               exchange.OrderID := itbitapi.Order.ID response |}, err),
           sent (ItBitPlaceOrder args) w1)
    end.
Proof.
  unfold ItBit.SubmitOrder, ItBit.GetWallets, ItBit.PlaceOrder, rest, mbind, M_bind, mret, M_ret.
  cbn zeta.
  destruct (ItBit.walletsAnswer _ _) as [wallets [e|]]; [reflexivity|].
  destruct (String.eqb _ "") eqn:Hw; [reflexivity|].
  unfold placeArgs, exchange.ToString.
  destruct (ItBit.placeOrderAnswer _ _ _) as [response err].
  destruct (String.eqb (itbitapi.Order.ID response) "") eqn:Hid; cbn.
  - apply String.eqb_eq in Hid. rewrite Hid. now destruct err.
  - now destruct err.
Qed.

Lemma formatType_None side ty price params :
  inMatrix side ty = false ->
  HUOBIHADAX.formatType side ty price params = None.
Proof.
  unfold inMatrix, HUOBIHADAX.formatType.
  destruct (String.eqb side exchange.Buy), (String.eqb side exchange.Sell),
    (String.eqb ty exchange.Market), (String.eqb ty exchange.Limit);
    cbn; congruence.
Qed.

Lemma formatType_Some side ty price params :
  inMatrix side ty = true ->
  HUOBIHADAX.formatType side ty price params
  = Some (nativeType side ty,
          if String.eqb ty exchange.Limit
          then HUOBIHADAX.withPrice params price else params).
Proof.
  unfold inMatrix, HUOBIHADAX.formatType, nativeType.
  destruct (String.eqb side exchange.Buy) eqn:Hb;
    destruct (String.eqb side exchange.Sell) eqn:Hs;
    destruct (String.eqb ty exchange.Market) eqn:Hm;
    destruct (String.eqb ty exchange.Limit) eqn:Hl;
    cbn; try congruence;
    try (apply String.eqb_eq in Hm; apply String.eqb_eq in Hl; subst ty; discriminate).
Qed.

(** [HUOBIHADAX.SubmitOrder] on a pair of the matrix: one placement
    request, whose answer makes the result. *)
Lemma HUOBIHADAX_SubmitOrder_eq h p side ty amount price cid w :
  inMatrix side ty = true ->
  HUOBIHADAX.SubmitOrder h p side ty amount price cid w
  = let params :=
      orderParams p (fst (strconv.ParseInt cid)) amount
        (if String.eqb ty exchange.Limit then price else float64.zero)
        (nativeType side ty) in
    let '(response, err) := HUOBIHADAX.spotNewOrderAnswer (HUOBIHADAX.venue h) (calls w) params in
    (({| exchange.IsOrderPlaced := isNil err;
         exchange.OrderID := if 0 <? response then pretty response else "" |}, err),
     sent (HuobiSpotNewOrder params) w).
Proof.
  intros Hin. unfold HUOBIHADAX.SubmitOrder.
  destruct (strconv.ParseInt cid) as [accountID perr]. cbn [fst].
  rewrite (formatType_Some _ _ _ _ Hin).
  unfold HUOBIHADAX.SpotNewOrder, rest, mbind, M_bind, mret, M_ret, orderParams.
  destruct (String.eqb ty exchange.Limit); cbn;
    destruct (HUOBIHADAX.spotNewOrderAnswer _ _ _) as [response err];
    destruct (0 <? response), err; reflexivity.
Qed.

(** ** The wallet search *)

Lemma scanBalances_spec id balances cur amount wallet :
  ItBit.scanBalances id balances cur amount wallet
  = if existsb (funds cur amount) balances then id else wallet.
Proof.
  revert wallet. induction balances as [|b bs IH]; intros wallet; cbn; [reflexivity|].
  rewrite IH. fold (funds cur amount b).
  destruct (funds cur amount b), (existsb (funds cur amount) bs); reflexivity.
Qed.

Lemma scanWallets_cons wl wallets cur amount wallet :
  ItBit.scanWallets (wl :: wallets) cur amount wallet
  = ItBit.scanWallets wallets cur amount
      (if qualifies cur amount wl then itbitapi.ID wl else wallet).
Proof. cbn. now rewrite scanBalances_spec. Qed.

Lemma scanWallets_app pre post cur amount wallet :
  ItBit.scanWallets (pre ++ post) cur amount wallet
  = ItBit.scanWallets post cur amount (ItBit.scanWallets pre cur amount wallet).
Proof.
  revert wallet. induction pre as [|wl pre IH]; intros wallet; [reflexivity|].
  cbn [app]. rewrite !scanWallets_cons. apply IH.
Qed.

(** Wallets that do not qualify leave the choice as it is. *)
Lemma scanWallets_none wallets cur amount wallet :
  Forall (fun wl => qualifies cur amount wl = false) wallets ->
  ItBit.scanWallets wallets cur amount wallet = wallet.
Proof.
  intros H. revert wallet.
  induction H as [|wl wallets Hq _ IH]; intros wallet; [reflexivity|].
  rewrite scanWallets_cons, Hq. apply IH.
Qed.

(** The search ends on the last wallet that qualifies. *)
Lemma scanWallets_last pre wl post cur amount wallet :
  qualifies cur amount wl = true ->
  Forall (fun x => qualifies cur amount x = false) post ->
  ItBit.scanWallets (pre ++ wl :: post) cur amount wallet = itbitapi.ID wl.
Proof.
  intros Hq Hpost.
  rewrite scanWallets_app, scanWallets_cons, Hq.
  now apply scanWallets_none.
Qed.

(** Once a wallet is chosen, the requests of [ItBit.SubmitOrder] are
    the enumeration and one placement, which carries the side, the
    order kind and the price as the caller gave them. *)
Lemma ItBit_SubmitOrder_placement_calls i p side ty amount price cid w wallets :
  ItBit.walletsAnswer (ItBit.venue i) (calls w) = (wallets, None) ->
  ItBit.scanWallets wallets (pair.FirstCurrency p) amount "" <> "" ->
  calls (snd (ItBit.SubmitOrder i p side ty amount price cid w))
  = calls w
    ++ [ItBitGetWallets;
        ItBitPlaceOrder
          (placeArgs (ItBit.scanWallets wallets (pair.FirstCurrency p) amount "")
             p side ty amount price)].
Proof.
  intros Hw Hne. rewrite ItBit_SubmitOrder_eq, Hw. cbn zeta.
  apply String.eqb_neq in Hne. rewrite Hne.
  destruct (ItBit.placeOrderAnswer _ _ _) as [response err]. cbn.
  now rewrite <- app_assoc.
Qed.

(** C3, as the code has it.  The loop over the wallets has no exit:
    when the enumeration succeeds and some wallet qualifies, the
    placement request is made on the last enumerated wallet that
    qualifies (provided its identifier is not empty). *)
Theorem SubmitOrder_uses_last_qualifying_wallet :
  forall (i : ItBit.t) (p : pair.CurrencyPair) (side : exchange.OrderSide)
         (ty : exchange.OrderType) (amount price : float64) (cid : string)
         (w : World) (pre post : list itbitapi.Wallet) (wl : itbitapi.Wallet),
    ItBit.walletsAnswer (ItBit.venue i) (calls w) = (pre ++ wl :: post, None) ->
    qualifies (pair.FirstCurrency p) amount wl = true ->
    Forall (fun x => qualifies (pair.FirstCurrency p) amount x = false) post ->
    itbitapi.ID wl <> "" ->
    calls (snd (ItBit.SubmitOrder i p side ty amount price cid w))
    = calls w
      ++ [ItBitGetWallets;
          ItBitPlaceOrder (placeArgs (itbitapi.ID wl) p side ty amount price)].
Proof.
  intros i p side ty amount price cid w pre post wl Hw Hq Hpost Hid.
  pose proof (scanWallets_last pre wl post _ _ "" Hq Hpost) as Hscan.
  rewrite (ItBit_SubmitOrder_placement_calls _ _ _ _ _ _ _ _ _ Hw); rewrite Hscan; auto.
Qed.

Lemma SubmitOrder_uses_last_qualifying_wallet_witness :
  calls (snd (ItBit.SubmitOrder (Sample.itbit Sample.accepting) Sample.btcusd
                exchange.Buy exchange.Limit (Sample.num 1) (Sample.num 20000) ""
                emptyWorld))
  = [ItBitGetWallets;
     ItBitPlaceOrder (placeArgs "wallet-B" Sample.btcusd exchange.Buy exchange.Limit
                        (Sample.num 1) (Sample.num 20000))].
Proof.
  apply (SubmitOrder_uses_last_qualifying_wallet
           (Sample.itbit Sample.accepting) Sample.btcusd exchange.Buy exchange.Limit
           (Sample.num 1) (Sample.num 20000) "" emptyWorld
           [Sample.walletA] [] Sample.walletB).
  - reflexivity.
  - vm_compute. reflexivity.
  - constructor.
  - discriminate.
Defined.

(** C3 as stated fails: with two qualifying wallets the first one is
    wallet-A, and the placement is made on wallet-B. *)
Lemma SubmitOrder_not_first_qualifying_wallet :
  find (qualifies "BTC" (Sample.num 1)) [Sample.walletA; Sample.walletB]
  = Some Sample.walletA
  /\ qualifies "BTC" (Sample.num 1) Sample.walletB = true
  /\ ItBit.walletsAnswer Sample.accepting [] = ([Sample.walletA; Sample.walletB], None)
  /\ calls (snd (ItBit.SubmitOrder (Sample.itbit Sample.accepting) Sample.btcusd
                   exchange.Buy exchange.Limit (Sample.num 1) (Sample.num 20000) ""
                   emptyWorld))
     = [ItBitGetWallets;
        ItBitPlaceOrder (placeArgs "wallet-B" Sample.btcusd exchange.Buy exchange.Limit
                           (Sample.num 1) (Sample.num 20000))]
  /\ itbitapi.ID Sample.walletA <> "wallet-B".
Proof. repeat split; try (vm_compute; reflexivity). discriminate. Qed.

(** C4. When the enumeration succeeds and no wallet has a balance in
    the base currency with at least [amount] available,
    [ItBit.SubmitOrder] fails with the error made of the no-wallet
    format, the base currency and the amount; the only request sent is
    the enumeration, so no placement request goes out. *)
Theorem SubmitOrder_insufficient_funds :
  forall (i : ItBit.t) (p : pair.CurrencyPair) (side : exchange.OrderSide)
         (ty : exchange.OrderType) (amount price : float64) (cid : string)
         (w : World) (wallets : list itbitapi.Wallet),
    ItBit.walletsAnswer (ItBit.venue i) (calls w) = (wallets, None) ->
    Forall (fun wl => qualifies (pair.FirstCurrency p) amount wl = false) wallets ->
    ItBit.SubmitOrder i p side ty amount price cid w
    = ((exchange.zeroSubmitOrderResponse,
        Some (Errorf "No wallet found with currency: %s with amount >= %v"
                [ArgString (pair.FirstCurrency p); ArgFloat amount])),
       sent ItBitGetWallets w)
    /\ calls (snd (ItBit.SubmitOrder i p side ty amount price cid w))
       = calls w ++ [ItBitGetWallets].
Proof.
  intros i p side ty amount price cid w wallets Hw Hnone.
  rewrite ItBit_SubmitOrder_eq, Hw. cbn zeta.
  rewrite (scanWallets_none _ _ _ "" Hnone). cbn. split; reflexivity.
Qed.

Lemma SubmitOrder_insufficient_funds_witness :
  ItBit.SubmitOrder (Sample.itbit Sample.poor) Sample.btcusd
    exchange.Buy exchange.Limit (Sample.num 1) (Sample.num 20000) "" emptyWorld
  = ((exchange.zeroSubmitOrderResponse,
      Some (Errorf "No wallet found with currency: %s with amount >= %v"
              [ArgString "BTC"; ArgFloat (Sample.num 1)])),
     sent ItBitGetWallets emptyWorld)
  /\ calls (snd (ItBit.SubmitOrder (Sample.itbit Sample.poor) Sample.btcusd
                   exchange.Buy exchange.Limit (Sample.num 1) (Sample.num 20000) ""
                   emptyWorld))
     = [ItBitGetWallets].
Proof.
  apply (SubmitOrder_insufficient_funds (Sample.itbit Sample.poor) Sample.btcusd
           exchange.Buy exchange.Limit (Sample.num 1) (Sample.num 20000) ""
           emptyWorld [Sample.walletPoor]).
  - reflexivity.
  - constructor; [vm_compute; reflexivity | constructor].
Defined.

(** ** Validation of (side, order kind) *)

(** C1, as the code has it.  [HUOBIHADAX.SubmitOrder] rejects every
    pair outside the matrix with its validation error and leaves the
    world untouched, so no request is sent.  [ItBit.SubmitOrder] has no
    such test: whatever the pair, its first step is the wallet
    enumeration request, and once a wallet is chosen the side and the
    order kind go to the venue as they came. *)
Theorem SubmitOrder_outside_matrix :
  (forall (h : HUOBIHADAX.t) (p : pair.CurrencyPair) (side : exchange.OrderSide)
          (ty : exchange.OrderType) (amount price : float64) (cid : string) (w : World),
      inMatrix side ty = false ->
      HUOBIHADAX.SubmitOrder h p side ty amount price cid w
      = ((exchange.zeroSubmitOrderResponse, Some (ErrorString "Unsupported order type")),
         w))
  /\ (forall (i : ItBit.t) (p : pair.CurrencyPair) (side : exchange.OrderSide)
             (ty : exchange.OrderType) (amount price : float64) (cid : string) (w : World),
         exists later,
           calls (snd (ItBit.SubmitOrder i p side ty amount price cid w))
           = calls w ++ ItBitGetWallets :: later)
  /\ (forall (i : ItBit.t) (p : pair.CurrencyPair) (side : exchange.OrderSide)
             (ty : exchange.OrderType) (amount price : float64) (cid : string) (w : World)
             (wallets : list itbitapi.Wallet),
         ItBit.walletsAnswer (ItBit.venue i) (calls w) = (wallets, None) ->
         ItBit.scanWallets wallets (pair.FirstCurrency p) amount "" <> "" ->
         exists args,
           calls (snd (ItBit.SubmitOrder i p side ty amount price cid w))
           = calls w ++ [ItBitGetWallets; ItBitPlaceOrder args]
           /\ itbitapi.side args = side /\ itbitapi.orderType args = ty).
Proof.
  split; [|split].
  - intros h p side ty amount price cid w Hout.
    unfold HUOBIHADAX.SubmitOrder.
    destruct (strconv.ParseInt cid) as [accountID perr].
    now rewrite (formatType_None _ _ _ _ Hout).
  - intros i p side ty amount price cid w.
    rewrite ItBit_SubmitOrder_eq. cbn zeta.
    destruct (ItBit.walletsAnswer _ _) as [wallets [e|]]; [exists []; reflexivity|].
    destruct (String.eqb _ ""); [exists []; reflexivity|].
    destruct (ItBit.placeOrderAnswer _ _ _) as [response err]. cbn.
    rewrite <- app_assoc. eauto.
  - intros i p side ty amount price cid w wallets Hw Hne.
    exists (placeArgs (ItBit.scanWallets wallets (pair.FirstCurrency p) amount "")
              p side ty amount price).
    split; [apply ItBit_SubmitOrder_placement_calls; assumption|].
    split; reflexivity.
Qed.

Lemma SubmitOrder_outside_matrix_witness :
  HUOBIHADAX.SubmitOrder (Sample.huobi Sample.huobiAccepting) Sample.btcusd
    "Bid" "Stop" (Sample.num 1) (Sample.num 20000) "7" emptyWorld
  = ((exchange.zeroSubmitOrderResponse, Some (ErrorString "Unsupported order type")),
     emptyWorld)
  /\ exists args,
       calls (snd (ItBit.SubmitOrder (Sample.itbit Sample.accepting) Sample.btcusd
                     "Bid" "Stop" (Sample.num 1) (Sample.num 20000) "" emptyWorld))
       = [ItBitGetWallets; ItBitPlaceOrder args]
       /\ itbitapi.side args = "Bid" /\ itbitapi.orderType args = "Stop".
Proof.
  destruct SubmitOrder_outside_matrix as (Hh & _ & Hi).
  split.
  - apply Hh. reflexivity.
  - apply (Hi (Sample.itbit Sample.accepting) Sample.btcusd "Bid" "Stop"
              (Sample.num 1) (Sample.num 20000) "" emptyWorld
              [Sample.walletA; Sample.walletB]).
    + reflexivity.
    + vm_compute. discriminate.
Defined.

(** C1 as stated fails on ItBit: the pair (Bid, Stop) is outside the
    matrix, yet the call returns no error at all, after an enumeration
    request and a placement request. *)
Lemma ItBit_SubmitOrder_no_validation :
  inMatrix "Bid" "Stop" = false
  /\ ItBit.SubmitOrder (Sample.itbit Sample.accepting) Sample.btcusd
       "Bid" "Stop" (Sample.num 1) (Sample.num 20000) "" emptyWorld
     = (({| exchange.IsOrderPlaced := true; exchange.OrderID := "order-1" |}, None),
        sent (ItBitPlaceOrder (placeArgs "wallet-B" Sample.btcusd "Bid" "Stop"
                                 (Sample.num 1) (Sample.num 20000)))
          (sent ItBitGetWallets emptyWorld)).
Proof. split; vm_compute; reflexivity. Qed.

(** ** The result of a placement *)

(** C5. In every run of either [SubmitOrder] the order-placed flag is
    true exactly when the returned error is nil.  In a run that reaches
    the placement request, the returned error is the one the venue
    answered, the flag is true exactly when that error is nil, and the
    identifier is taken from the venue's answer whatever the error: so
    an answer with an identifier and an error gives the identifier with
    the flag false. *)
Theorem SubmitOrder_flag_and_identifier :
  (forall (i : ItBit.t) (p : pair.CurrencyPair) (side : exchange.OrderSide)
          (ty : exchange.OrderType) (amount price : float64) (cid : string) (w : World),
      let r := fst (ItBit.SubmitOrder i p side ty amount price cid w) in
      exchange.IsOrderPlaced (fst r) = true <-> snd r = None)
  /\ (forall (h : HUOBIHADAX.t) (p : pair.CurrencyPair) (side : exchange.OrderSide)
             (ty : exchange.OrderType) (amount price : float64) (cid : string) (w : World),
         let r := fst (HUOBIHADAX.SubmitOrder h p side ty amount price cid w) in
         exchange.IsOrderPlaced (fst r) = true <-> snd r = None)
  /\ (forall (i : ItBit.t) (p : pair.CurrencyPair) (side : exchange.OrderSide)
             (ty : exchange.OrderType) (amount price : float64) (cid : string) (w : World)
             (wallets : list itbitapi.Wallet) (response : itbitapi.Order.t)
             (err : option error),
         ItBit.walletsAnswer (ItBit.venue i) (calls w) = (wallets, None) ->
         ItBit.scanWallets wallets (pair.FirstCurrency p) amount "" <> "" ->
         ItBit.placeOrderAnswer (ItBit.venue i) (calls w ++ [ItBitGetWallets])
           (placeArgs (ItBit.scanWallets wallets (pair.FirstCurrency p) amount "")
              p side ty amount price)
         = (response, err) ->
         fst (ItBit.SubmitOrder i p side ty amount price cid w)
         = ({| exchange.IsOrderPlaced := isNil err;
               exchange.OrderID := itbitapi.Order.ID response |}, err))
  /\ (forall (h : HUOBIHADAX.t) (p : pair.CurrencyPair) (side : exchange.OrderSide)
             (ty : exchange.OrderType) (amount price : float64) (cid : string) (w : World)
             (response : Z) (err : option error),
         inMatrix side ty = true ->
         HUOBIHADAX.spotNewOrderAnswer (HUOBIHADAX.venue h) (calls w)
           (orderParams p (fst (strconv.ParseInt cid)) amount
              (if String.eqb ty exchange.Limit then price else float64.zero)
              (nativeType side ty))
         = (response, err) ->
         fst (HUOBIHADAX.SubmitOrder h p side ty amount price cid w)
         = ({| exchange.IsOrderPlaced := isNil err;
               exchange.OrderID := if 0 <? response then pretty response else "" |}, err)).
Proof.
  split; [|split; [|split]].
  - intros i p side ty amount price cid w. rewrite ItBit_SubmitOrder_eq. cbn zeta.
    destruct (ItBit.walletsAnswer _ _) as [wallets [e|]]; [cbn; split; discriminate|].
    destruct (String.eqb _ ""); [cbn; split; discriminate|].
    destruct (ItBit.placeOrderAnswer _ _ _) as [response [e|]]; cbn;
      split; intros; try discriminate; reflexivity.
  - intros h p side ty amount price cid w.
    destruct (inMatrix side ty) eqn:Hin.
    + rewrite (HUOBIHADAX_SubmitOrder_eq _ _ _ _ _ _ _ _ Hin). cbn zeta.
      destruct (HUOBIHADAX.spotNewOrderAnswer _ _ _) as [response [e|]]; cbn;
        split; intros; try discriminate; reflexivity.
    + unfold HUOBIHADAX.SubmitOrder.
      destruct (strconv.ParseInt cid) as [accountID perr].
      rewrite (formatType_None _ _ _ _ Hin). cbn. split; discriminate.
  - intros i p side ty amount price cid w wallets response err Hw Hne Hans.
    rewrite ItBit_SubmitOrder_eq, Hw. cbn zeta.
    apply String.eqb_neq in Hne. rewrite Hne.
    cbn [sent calls]. now rewrite Hans.
  - intros h p side ty amount price cid w response err Hin Hans.
    rewrite (HUOBIHADAX_SubmitOrder_eq _ _ _ _ _ _ _ _ Hin). cbn zeta.
    now rewrite Hans.
Qed.

Lemma SubmitOrder_flag_and_identifier_witness :
  fst (ItBit.SubmitOrder (Sample.itbit Sample.rejecting) Sample.btcusd
         exchange.Buy exchange.Limit (Sample.num 1) (Sample.num 20000) "" emptyWorld)
  = ({| exchange.IsOrderPlaced := false; exchange.OrderID := "order-2" |},
     Some (VenueError "order rejected"))
  /\ fst (HUOBIHADAX.SubmitOrder (Sample.huobi Sample.huobiRejecting) Sample.btcusd
            exchange.Sell exchange.Market (Sample.num 1) (Sample.num 20000) "7" emptyWorld)
     = ({| exchange.IsOrderPlaced := false; exchange.OrderID := "42" |},
        Some (VenueError "order rejected")).
Proof.
  destruct SubmitOrder_flag_and_identifier as (_ & _ & Hi & Hh).
  split.
  - apply (Hi (Sample.itbit Sample.rejecting) Sample.btcusd exchange.Buy exchange.Limit
              (Sample.num 1) (Sample.num 20000) "" emptyWorld [Sample.walletA]
              {| itbitapi.Order.ID := "order-2"; itbitapi.Order.Status := "rejected" |}
              (Some (VenueError "order rejected"))).
    + reflexivity.
    + vm_compute. discriminate.
    + reflexivity.
  - apply (Hh (Sample.huobi Sample.huobiRejecting) Sample.btcusd exchange.Sell
              exchange.Market (Sample.num 1) (Sample.num 20000) "7" emptyWorld
              42 (Some (VenueError "order rejected"))).
    + reflexivity.
    + reflexivity.
Defined.

(** ** The price of the request *)

(** C8, as the code has it.  On a pair of the matrix
    [HUOBIHADAX.SubmitOrder] sends one placement request whose price is
    the caller's on a limit order and is left at the zero value on a
    market order.  [ItBit.SubmitOrder] passes the caller's price to the
    placement request whatever the order kind. *)
Theorem SubmitOrder_price_attachment :
  (forall (h : HUOBIHADAX.t) (p : pair.CurrencyPair) (side : exchange.OrderSide)
          (ty : exchange.OrderType) (amount price : float64) (cid : string) (w : World),
      inMatrix side ty = true ->
      exists params,
        calls (snd (HUOBIHADAX.SubmitOrder h p side ty amount price cid w))
        = calls w ++ [HuobiSpotNewOrder params]
        /\ huobiapi.Type_ params = nativeType side ty
        /\ huobiapi.Price params
           = if String.eqb ty exchange.Limit then price else float64.zero)
  /\ (forall (i : ItBit.t) (p : pair.CurrencyPair) (side : exchange.OrderSide)
             (ty : exchange.OrderType) (amount price : float64) (cid : string) (w : World)
             (wallets : list itbitapi.Wallet),
         ItBit.walletsAnswer (ItBit.venue i) (calls w) = (wallets, None) ->
         ItBit.scanWallets wallets (pair.FirstCurrency p) amount "" <> "" ->
         exists args,
           calls (snd (ItBit.SubmitOrder i p side ty amount price cid w))
           = calls w ++ [ItBitGetWallets; ItBitPlaceOrder args]
           /\ itbitapi.orderType args = ty /\ itbitapi.price args = price).
Proof.
  split.
  - intros h p side ty amount price cid w Hin.
    rewrite (HUOBIHADAX_SubmitOrder_eq _ _ _ _ _ _ _ _ Hin). cbn zeta.
    destruct (HUOBIHADAX.spotNewOrderAnswer _ _ _) as [response err].
    eexists. split; [reflexivity|]. split; reflexivity.
  - intros i p side ty amount price cid w wallets Hw Hne.
    exists (placeArgs (ItBit.scanWallets wallets (pair.FirstCurrency p) amount "")
              p side ty amount price).
    split; [apply ItBit_SubmitOrder_placement_calls; assumption|].
    split; reflexivity.
Qed.

Lemma SubmitOrder_price_attachment_witness :
  (exists params,
      calls (snd (HUOBIHADAX.SubmitOrder (Sample.huobi Sample.huobiAccepting)
                    Sample.btcusd exchange.Buy exchange.Market
                    (Sample.num 1) (Sample.num 20000) "7" emptyWorld))
      = [HuobiSpotNewOrder params]
      /\ huobiapi.Type_ params = "buy-market"
      /\ huobiapi.Price params = float64.zero)
  /\ (exists params,
         calls (snd (HUOBIHADAX.SubmitOrder (Sample.huobi Sample.huobiAccepting)
                       Sample.btcusd exchange.Sell exchange.Limit
                       (Sample.num 1) (Sample.num 20000) "7" emptyWorld))
         = [HuobiSpotNewOrder params]
         /\ huobiapi.Type_ params = "sell-limit"
         /\ huobiapi.Price params = Sample.num 20000)
  /\ (exists args,
         calls (snd (ItBit.SubmitOrder (Sample.itbit Sample.accepting) Sample.btcusd
                       exchange.Buy exchange.Market (Sample.num 1) (Sample.num 20000) ""
                       emptyWorld))
         = [ItBitGetWallets; ItBitPlaceOrder args]
         /\ itbitapi.orderType args = "Market"
         /\ itbitapi.price args = Sample.num 20000).
Proof.
  destruct SubmitOrder_price_attachment as (Hh & Hi).
  split; [|split].
  - apply (Hh (Sample.huobi Sample.huobiAccepting) Sample.btcusd exchange.Buy
              exchange.Market (Sample.num 1) (Sample.num 20000) "7" emptyWorld).
    reflexivity.
  - apply (Hh (Sample.huobi Sample.huobiAccepting) Sample.btcusd exchange.Sell
              exchange.Limit (Sample.num 1) (Sample.num 20000) "7" emptyWorld).
    reflexivity.
  - apply (Hi (Sample.itbit Sample.accepting) Sample.btcusd exchange.Buy exchange.Market
              (Sample.num 1) (Sample.num 20000) "" emptyWorld
              [Sample.walletA; Sample.walletB]).
    + reflexivity.
    + vm_compute. discriminate.
Defined.

(** C8 as stated fails on ItBit: a market order given the price 20000
    reaches the venue with that price in the placement request. *)
Lemma ItBit_market_order_carries_price :
  inMatrix exchange.Buy exchange.Market = true
  /\ calls (snd (ItBit.SubmitOrder (Sample.itbit Sample.accepting) Sample.btcusd
                   exchange.Buy exchange.Market (Sample.num 1) (Sample.num 20000) ""
                   emptyWorld))
     = [ItBitGetWallets;
        ItBitPlaceOrder
          {| itbitapi.walletID := "wallet-B"; itbitapi.side := "Buy";
             itbitapi.orderType := "Market"; itbitapi.currency := "BTC";
             itbitapi.amount := Sample.num 1; itbitapi.price := Sample.num 20000;
             itbitapi.instrument := "BTCUSD"; itbitapi.clientRef := "" |}]
  /\ Sample.num 20000 <> float64.zero.
Proof. repeat split; try (vm_compute; reflexivity). discriminate. Qed.

(** ** The account identifier of HuobiHadax *)




(** ** Conversion of the raw order book *)

Lemma logAll_nil w : logAll [] w = w.
Proof. destruct w. unfold logAll. cbn. now rewrite app_nil_r. Qed.

Lemma logAll_app a b w : logAll b (logAll a w) = logAll (a ++ b) w.
Proof. unfold logAll. cbn. now rewrite app_assoc. Qed.

Lemma parseLogged_eq s w :
  ItBit.parseLogged s w
  = (fst (strconv.ParseFloat s),
     logAll (match snd (strconv.ParseFloat s) with Some e => [e] | None => [] end) w).
Proof.
  unfold ItBit.parseLogged.
  destruct (strconv.ParseFloat s) as [v [e|]]; cbn.
  - reflexivity.
  - now rewrite logAll_nil.
Qed.

(** What [ParseFloat] returns along with an error: 0 with a syntax
    error, an infinity with a range error. *)
Lemma ParseFloat_error s v e :
  strconv.ParseFloat s = (v, Some e) ->
  (e = strconv.syntaxError "ParseFloat" s /\ v = float64.zero)
  \/ (e = strconv.rangeError "ParseFloat" s /\ exists sg, v = S754_infinity sg).
Proof.
  unfold strconv.ParseFloat.
  destruct (strconv.special s); [discriminate|].
  destruct (strconv.readFloat s) as [[[[neg hex] m] ex]|].
  - destruct (if m =? 0 then _ else _) as [sg|sg| |sg mm ee] eqn:Hf;
      intros H; inversion H; subst. right. eauto.
  - intros H. inversion H. now left.
Qed.

(** A loop of [UpdateOrderbook] over levels of two strings or more:
    one item per level, in order, and the conversion errors logged. *)
Lemma appendLevels_spec raw :
  Forall (fun data : list string => (2 <= length data)%nat) raw ->
  forall items w,
    ItBit.appendLevels raw items w
    = Some (items ++ map level raw, logAll (concat (map levelErrors raw)) w).
Proof.
  induction 1 as [|data raw Hlen _ IH]; intros items w; cbn [ItBit.appendLevels].
  - cbn. now rewrite app_nil_r, logAll_nil.
  - destruct data as [|d0 [|d1 rest]]; cbn in Hlen; try lia.
    cbn [lookup list_lookup]. rewrite !parseLogged_eq, IH.
    rewrite !logAll_app, <- !app_assoc.
    cbn [map concat]. unfold level at 2, levelErrors at 2.
    cbn [lookup_total list_lookup_total]. rewrite <- !app_assoc. reflexivity.
Qed.

(** C6, as the code has it.  When the venue answers with a payload
    whose levels have two strings or more, [ItBit.UpdateOrderbook]
    does not fail: it returns, and stores, a snapshot with one level
    per raw entry on each side, in order, each field being the value
    [ParseFloat] returned for its string; the errors go to the log and
    nowhere else; one request is sent.  The value returned with an
    error is 0 for a malformed string and an infinity for a literal
    out of the float64 range. *)
Theorem UpdateOrderbook_keeps_every_level :
  forall (i : ItBit.t) (p : pair.CurrencyPair) (a : assets.AssetType) (w : World)
         (raw : itbitapi.OrderbookResponse),
    ItBit.orderbookAnswer (ItBit.venue i) (calls w)
      (exchange.FormatExchangeCurrency (ItBit.base i) p) = (raw, None) ->
    Forall (fun data : list string => (2 <= length data)%nat) (itbitapi.Bids raw) ->
    Forall (fun data : list string => (2 <= length data)%nat) (itbitapi.Asks raw) ->
    let snapshot :=
      {| orderbook.Bids := map level (itbitapi.Bids raw);
         orderbook.Asks := map level (itbitapi.Asks raw) |} in
    ItBit.UpdateOrderbook i p a w
    = Some ((snapshot, None),
            {| tickers := tickers w;
               orderbooks := <[mkkey (ItBit.Name i) p a := snapshot]> (orderbooks w);
               logged := logged w
                         ++ concat (map levelErrors (itbitapi.Bids raw))
                         ++ concat (map levelErrors (itbitapi.Asks raw));
               calls := calls w
                        ++ [ItBitGetOrderbook
                              (exchange.FormatExchangeCurrency (ItBit.base i) p)] |})
    /\ (forall s v e,
           strconv.ParseFloat s = (v, Some e) ->
           (e = strconv.syntaxError "ParseFloat" s /\ v = float64.zero)
           \/ (e = strconv.rangeError "ParseFloat" s /\ exists sg, v = S754_infinity sg)).
Proof.
  intros i p a w raw Hans Hbids Hasks snapshot.
  split; [|apply ParseFloat_error].
  unfold ItBit.UpdateOrderbook, ItBit.GetOrderbook, rest. rewrite Hans.
  rewrite (appendLevels_spec _ Hbids), (appendLevels_spec _ Hasks).
  unfold mbind, M_bind, cache.ProcessOrderbook, cache.GetOrderbook.
  cbn [tickers orderbooks logged calls logAll sent app].
  unfold ItBit.GetName, ItBit.Name, exchange.GetName.
  rewrite lookup_insert_eq. subst snapshot. cbn.
  now rewrite <- app_assoc.
Qed.

Lemma UpdateOrderbook_keeps_every_level_witness :
  ItBit.UpdateOrderbook (Sample.itbit Sample.accepting) Sample.btcusd
    assets.AssetTypeSpot emptyWorld
  = Some (({| orderbook.Bids := map level (itbitapi.Bids Sample.depth);
              orderbook.Asks := map level (itbitapi.Asks Sample.depth) |}, None),
          {| tickers := ∅;
             orderbooks :=
               <[mkkey "ITBIT" Sample.btcusd assets.AssetTypeSpot :=
                   {| orderbook.Bids := map level (itbitapi.Bids Sample.depth);
                      orderbook.Asks := map level (itbitapi.Asks Sample.depth) |}]> ∅;
             logged := [strconv.rangeError "ParseFloat" "1e400";
                        strconv.syntaxError "ParseFloat" "abc"];
             calls := [ItBitGetOrderbook "BTCUSD"] |}).
Proof.
  apply (UpdateOrderbook_keeps_every_level (Sample.itbit Sample.accepting)
           Sample.btcusd assets.AssetTypeSpot emptyWorld Sample.depth).
  - reflexivity.
  - repeat constructor.
  - repeat constructor.
Defined.

(** C6 as stated fails: the price "1e400" does not convert (the error
    is logged), the call succeeds, and the level holds an infinite
    price, not zero; the malformed "abc" does give zero. *)
Lemma UpdateOrderbook_range_error_is_not_zero :
  strconv.ParseFloat "1e400"
  = (S754_infinity false, Some (strconv.rangeError "ParseFloat" "1e400"))
  /\ (let r := ItBit.UpdateOrderbook (Sample.itbit Sample.accepting) Sample.btcusd
                 assets.AssetTypeSpot emptyWorld in
      (fst <$> r)
      = Some ({| orderbook.Bids :=
                   [ {| orderbook.Amount := Sample.num 1;
                        orderbook.Price := S754_infinity false |};
                     {| orderbook.Amount := Sample.num 2;
                        orderbook.Price := Sample.num 19999 |} ];
                 orderbook.Asks :=
                   [ {| orderbook.Amount := Sample.num 3;
                        orderbook.Price := float64.zero |};
                     {| orderbook.Amount := Sample.half;
                        orderbook.Price := Sample.num 20001 |} ] |}, None)
      /\ (logged ∘ snd <$> r)
         = Some [strconv.rangeError "ParseFloat" "1e400";
                 strconv.syntaxError "ParseFloat" "abc"])
  /\ S754_infinity false <> float64.zero.
Proof.
  split; [vm_compute; reflexivity|].
  split; [split; vm_compute; reflexivity|discriminate].
Qed.

(** * Further properties of the wrappers *)

(** ** Refreshing the ticker *)

(** X1. A successful refresh of the ItBit ticker returns the venue's quote
    field by field with the pair of the call, stores it under the key
    of the call over whatever was there, and makes the next
    [FetchTicker] of that key a hit that returns it and sends
    nothing. *)
Theorem ItBit_UpdateTicker_stores_and_returns :
  forall (i : ItBit.t) (p : pair.CurrencyPair) (a : assets.AssetType) (w : World)
         (tick : itbitapi.Ticker),
    ItBit.tickerAnswer (ItBit.venue i) (calls w)
      (exchange.FormatExchangeCurrency (ItBit.base i) p) = (tick, None) ->
    exists r w',
      ItBit.UpdateTicker i p a w = ((r, None), w')
      /\ ticker.Pair r = p
      /\ ticker.Ask r = itbitapi.Ask tick
      /\ ticker.Bid r = itbitapi.Bid tick
      /\ ticker.Last r = itbitapi.LastPrice tick
      /\ ticker.High r = itbitapi.High24h tick
      /\ ticker.Low r = itbitapi.Low24h tick
      /\ ticker.Volume r = itbitapi.Volume24h tick
      /\ tickers w' !! mkkey (ItBit.Name i) p a = Some r
      /\ ItBit.FetchTicker i p a w' = ((r, None), w').
Proof.
  intros i p a w tick Hans.
  unfold ItBit.UpdateTicker, ItBit.GetTicker, rest, mbind, M_bind. rewrite Hans.
  unfold cache.ProcessTicker, cache.GetTicker, ItBit.GetName, ItBit.Name, exchange.GetName.
  cbn [tickers]. rewrite lookup_insert_eq.
  eexists. eexists. split; [reflexivity|].
  repeat (split; [reflexivity|]).
  split; [cbn; apply lookup_insert_eq|].
  unfold ItBit.FetchTicker, mbind, M_bind, ItBit.GetName, exchange.GetName.
  rewrite (cache_GetTicker_hit _ _ _ _ _ (lookup_insert_eq _ _ _)). reflexivity.
Qed.

Lemma ItBit_UpdateTicker_stores_and_returns_witness :
  exists r w',
    ItBit.UpdateTicker (Sample.itbit Sample.accepting) Sample.btcusd
      assets.AssetTypeSpot emptyWorld = ((r, None), w')
    /\ ticker.Pair r = Sample.btcusd
    /\ ticker.Ask r = Sample.num 20001
    /\ ticker.Bid r = Sample.num 19999
    /\ ticker.Last r = Sample.num 20000
    /\ ticker.High r = Sample.num 20500
    /\ ticker.Low r = Sample.num 19500
    /\ ticker.Volume r = Sample.num 12
    /\ tickers w' !! mkkey "ITBIT" Sample.btcusd assets.AssetTypeSpot = Some r
    /\ ItBit.FetchTicker (Sample.itbit Sample.accepting) Sample.btcusd
         assets.AssetTypeSpot w' = ((r, None), w').
Proof.
  apply (ItBit_UpdateTicker_stores_and_returns (Sample.itbit Sample.accepting)
           Sample.btcusd assets.AssetTypeSpot emptyWorld Sample.quote).
  reflexivity.
Defined.

(** X2. A successful refresh of the HuobiHadax ticker: the last price is
    the close, and the ask and the bid are the first elements of the
    venue's arrays, or zero when an array is empty; the call does not
    fail on an empty array.  The snapshot is stored and the next
    [FetchTicker] returns it without a request. *)
Theorem HUOBIHADAX_UpdateTicker_first_or_zero :
  forall (h : HUOBIHADAX.t) (p : pair.CurrencyPair) (a : assets.AssetType) (w : World)
         (tick : huobiapi.DetailMerged),
    HUOBIHADAX.detailMergedAnswer (HUOBIHADAX.venue h) (calls w)
      (exchange.FormatExchangeCurrency (HUOBIHADAX.base h) p) = (tick, None) ->
    exists r w',
      HUOBIHADAX.UpdateTicker h p a w = ((r, None), w')
      /\ ticker.Pair r = p
      /\ ticker.Last r = huobiapi.Close tick
      /\ ticker.Low r = huobiapi.Low tick
      /\ ticker.High r = huobiapi.High tick
      /\ ticker.Volume r = huobiapi.Volume tick
      /\ ticker.Ask r = default float64.zero (head (huobiapi.Ask tick))
      /\ ticker.Bid r = default float64.zero (head (huobiapi.Bid tick))
      /\ tickers w' !! mkkey (HUOBIHADAX.Name h) p a = Some r
      /\ HUOBIHADAX.FetchTicker h p a w' = ((r, None), w').
Proof.
  intros h p a w tick Hans.
  unfold HUOBIHADAX.UpdateTicker, HUOBIHADAX.GetMarketDetailMerged, rest, mbind, M_bind.
  rewrite Hans.
  unfold cache.ProcessTicker, cache.GetTicker, HUOBIHADAX.GetName, HUOBIHADAX.Name,
    exchange.GetName.
  cbn [tickers]. rewrite lookup_insert_eq.
  eexists. eexists. split; [reflexivity|].
  repeat (split; [reflexivity|]).
  split; [now destruct (huobiapi.Ask tick)|].
  split; [now destruct (huobiapi.Bid tick)|].
  split; [cbn; apply lookup_insert_eq|].
  unfold HUOBIHADAX.FetchTicker, mbind, M_bind, HUOBIHADAX.GetName, exchange.GetName.
  rewrite (cache_GetTicker_hit _ _ _ _ _ (lookup_insert_eq _ _ _)). reflexivity.
Qed.

Lemma HUOBIHADAX_UpdateTicker_first_or_zero_witness :
  exists r w',
    HUOBIHADAX.UpdateTicker (Sample.huobi Sample.huobiAccepting) Sample.btcusd
      assets.AssetTypeSpot emptyWorld = ((r, None), w')
    /\ ticker.Pair r = Sample.btcusd
    /\ ticker.Last r = Sample.num 20000
    /\ ticker.Low r = Sample.num 19500
    /\ ticker.High r = Sample.num 20500
    /\ ticker.Volume r = Sample.num 12
    /\ ticker.Ask r = float64.zero
    /\ ticker.Bid r = Sample.num 19999
    /\ tickers w' !! mkkey "HuobiHadax" Sample.btcusd assets.AssetTypeSpot = Some r
    /\ HUOBIHADAX.FetchTicker (Sample.huobi Sample.huobiAccepting) Sample.btcusd
         assets.AssetTypeSpot w' = ((r, None), w').
Proof.
  apply (HUOBIHADAX_UpdateTicker_first_or_zero (Sample.huobi Sample.huobiAccepting)
           Sample.btcusd assets.AssetTypeSpot emptyWorld Sample.merged).
  reflexivity.
Defined.

(** X3. A refresh the venue answers with an error returns that error with
    the zero snapshot and stores nothing: a snapshot cached before is
    still what [FetchTicker] returns afterwards.  This holds for both
    adapters. *)
Theorem UpdateTicker_failure_keeps_cache :
  forall (i : ItBit.t) (h : HUOBIHADAX.t) (p : pair.CurrencyPair)
         (a : assets.AssetType) (w : World) (e : error),
    (forall tick,
        ItBit.tickerAnswer (ItBit.venue i) (calls w)
          (exchange.FormatExchangeCurrency (ItBit.base i) p) = (tick, Some e) ->
        ItBit.UpdateTicker i p a w
        = ((ticker.zero, Some e),
           sent (ItBitGetTicker (exchange.FormatExchangeCurrency (ItBit.base i) p)) w)
        /\ forall t, tickers w !! mkkey (ItBit.Name i) p a = Some t ->
             fst (ItBit.FetchTicker i p a (snd (ItBit.UpdateTicker i p a w)))
             = (t, None))
    /\ (forall tick,
           HUOBIHADAX.detailMergedAnswer (HUOBIHADAX.venue h) (calls w)
             (exchange.FormatExchangeCurrency (HUOBIHADAX.base h) p) = (tick, Some e) ->
           HUOBIHADAX.UpdateTicker h p a w
           = ((ticker.zero, Some e),
              sent (HuobiGetMarketDetailMerged
                      (exchange.FormatExchangeCurrency (HUOBIHADAX.base h) p)) w)
           /\ forall t, tickers w !! mkkey (HUOBIHADAX.Name h) p a = Some t ->
                fst (HUOBIHADAX.FetchTicker h p a (snd (HUOBIHADAX.UpdateTicker h p a w)))
                = (t, None)).
Proof.
  intros i h p a w e. split.
  - intros tick Hans.
    assert (Hu : ItBit.UpdateTicker i p a w
                 = ((ticker.zero, Some e),
                    sent (ItBitGetTicker (exchange.FormatExchangeCurrency (ItBit.base i) p)) w)).
    { unfold ItBit.UpdateTicker, ItBit.GetTicker, rest, mbind, M_bind.
      now rewrite Hans. }
    split; [exact Hu|]. intros t Ht. rewrite Hu. cbn [snd].
    unfold ItBit.FetchTicker, mbind, M_bind, ItBit.GetName, exchange.GetName.
    unfold ItBit.Name in Ht.
    now rewrite (cache_GetTicker_hit _ _ _ t (sent _ w) Ht).
  - intros tick Hans.
    assert (Hu : HUOBIHADAX.UpdateTicker h p a w
                 = ((ticker.zero, Some e),
                    sent (HuobiGetMarketDetailMerged
                            (exchange.FormatExchangeCurrency (HUOBIHADAX.base h) p)) w)).
    { unfold HUOBIHADAX.UpdateTicker, HUOBIHADAX.GetMarketDetailMerged, rest, mbind, M_bind.
      now rewrite Hans. }
    split; [exact Hu|]. intros t Ht. rewrite Hu. cbn [snd].
    unfold HUOBIHADAX.FetchTicker, mbind, M_bind, HUOBIHADAX.GetName, exchange.GetName.
    unfold HUOBIHADAX.Name in Ht.
    now rewrite (cache_GetTicker_hit _ _ _ t (sent _ w) Ht).
Qed.

Lemma UpdateTicker_failure_keeps_cache_witness :
  let warm := snd (ItBit.UpdateTicker (Sample.itbit Sample.accepting) Sample.btcusd
                     assets.AssetTypeSpot emptyWorld) in
  let warm' := snd (HUOBIHADAX.UpdateTicker (Sample.huobi Sample.huobiAccepting)
                      Sample.btcusd assets.AssetTypeSpot emptyWorld) in
  (ItBit.UpdateTicker (Sample.itbit SampleOps.down) Sample.btcusd
     assets.AssetTypeSpot warm
   = ((ticker.zero, Some (VenueError "timeout")), sent (ItBitGetTicker "BTCUSD") warm)
   /\ fst (ItBit.FetchTicker (Sample.itbit SampleOps.down) Sample.btcusd
             assets.AssetTypeSpot
             (snd (ItBit.UpdateTicker (Sample.itbit SampleOps.down) Sample.btcusd
                     assets.AssetTypeSpot warm)))
      = fst (ItBit.UpdateTicker (Sample.itbit Sample.accepting) Sample.btcusd
               assets.AssetTypeSpot emptyWorld))
  /\ (HUOBIHADAX.UpdateTicker (Sample.huobi SampleOps.huobiDown) Sample.btcusd
        assets.AssetTypeSpot warm'
      = ((ticker.zero, Some (VenueError "timeout")),
         sent (HuobiGetMarketDetailMerged "BTCUSD") warm')
      /\ fst (HUOBIHADAX.FetchTicker (Sample.huobi SampleOps.huobiDown) Sample.btcusd
                assets.AssetTypeSpot
                (snd (HUOBIHADAX.UpdateTicker (Sample.huobi SampleOps.huobiDown)
                        Sample.btcusd assets.AssetTypeSpot warm')))
         = fst (HUOBIHADAX.UpdateTicker (Sample.huobi Sample.huobiAccepting)
                  Sample.btcusd assets.AssetTypeSpot emptyWorld)).
Proof.
  intros warm warm'.
  destruct (UpdateTicker_failure_keeps_cache (Sample.itbit SampleOps.down)
              (Sample.huobi SampleOps.huobiDown) Sample.btcusd assets.AssetTypeSpot
              warm (VenueError "timeout")) as [Hi _].
  destruct (UpdateTicker_failure_keeps_cache (Sample.itbit SampleOps.down)
              (Sample.huobi SampleOps.huobiDown) Sample.btcusd assets.AssetTypeSpot
              warm' (VenueError "timeout")) as [_ Hh].
  destruct (Hi Sample.quote eq_refl) as [Hi1 Hi2].
  destruct (Hh Sample.merged eq_refl) as [Hh1 Hh2].
  split; split.
  - exact Hi1.
  - apply Hi2. vm_compute. reflexivity.
  - exact Hh1.
  - apply Hh2. vm_compute. reflexivity.
Defined.

(** X4. A refresh of the ticker, successful or not, touches nothing but
    the snapshot of its own key: every other ticker key, the order
    books and the log are as before.  This holds for both adapters. *)
Theorem UpdateTicker_touches_only_its_key :
  forall (i : ItBit.t) (h : HUOBIHADAX.t) (p : pair.CurrencyPair)
         (a : assets.AssetType) (w : World) (k : key),
    (k <> mkkey (ItBit.Name i) p a ->
       tickers (snd (ItBit.UpdateTicker i p a w)) !! k = tickers w !! k)
    /\ orderbooks (snd (ItBit.UpdateTicker i p a w)) = orderbooks w
    /\ logged (snd (ItBit.UpdateTicker i p a w)) = logged w
    /\ (k <> mkkey (HUOBIHADAX.Name h) p a ->
          tickers (snd (HUOBIHADAX.UpdateTicker h p a w)) !! k = tickers w !! k)
    /\ orderbooks (snd (HUOBIHADAX.UpdateTicker h p a w)) = orderbooks w
    /\ logged (snd (HUOBIHADAX.UpdateTicker h p a w)) = logged w.
Proof.
  intros i h p a w k.
  assert (Hi : exists t,
             snd (ItBit.UpdateTicker i p a w)
             = sent (ItBitGetTicker (exchange.FormatExchangeCurrency (ItBit.base i) p)) w
             \/ snd (ItBit.UpdateTicker i p a w)
                = {| tickers := <[mkkey (ItBit.Name i) p a := t]> (tickers w);
                     orderbooks := orderbooks w; logged := logged w;
                     calls := calls w
                              ++ [ItBitGetTicker
                                    (exchange.FormatExchangeCurrency (ItBit.base i) p)] |}).
  { unfold ItBit.UpdateTicker, ItBit.GetTicker, rest, mbind, M_bind.
    destruct (ItBit.tickerAnswer _ _ _) as [tick [e|]].
    - exists ticker.zero. now left.
    - eexists. right. cbn [cache.ProcessTicker]. rewrite cache_GetTicker_world.
      reflexivity. }
  assert (Hh : exists t,
             snd (HUOBIHADAX.UpdateTicker h p a w)
             = sent (HuobiGetMarketDetailMerged
                       (exchange.FormatExchangeCurrency (HUOBIHADAX.base h) p)) w
             \/ snd (HUOBIHADAX.UpdateTicker h p a w)
                = {| tickers := <[mkkey (HUOBIHADAX.Name h) p a := t]> (tickers w);
                     orderbooks := orderbooks w; logged := logged w;
                     calls := calls w
                              ++ [HuobiGetMarketDetailMerged
                                    (exchange.FormatExchangeCurrency (HUOBIHADAX.base h) p)] |}).
  { unfold HUOBIHADAX.UpdateTicker, HUOBIHADAX.GetMarketDetailMerged, rest, mbind, M_bind.
    destruct (HUOBIHADAX.detailMergedAnswer _ _ _) as [tick [e|]].
    - exists ticker.zero. now left.
    - eexists. right. cbn [cache.ProcessTicker]. rewrite cache_GetTicker_world.
      reflexivity. }
  destruct Hi as [ti [Hi|Hi]], Hh as [th [Hh|Hh]]; rewrite Hi, Hh; cbn;
    repeat split; trivial; intros Hk; now rewrite lookup_insert_ne.
Qed.

Lemma UpdateTicker_touches_only_its_key_witness :
  let warm := snd (HUOBIHADAX.UpdateTicker (Sample.huobi Sample.huobiAccepting)
                     Sample.btcusd assets.AssetTypeSpot emptyWorld) in
  let k := mkkey "HuobiHadax" Sample.btcusd assets.AssetTypeSpot in
  tickers (snd (ItBit.UpdateTicker (Sample.itbit Sample.accepting) Sample.btcusd
                  assets.AssetTypeSpot warm)) !! k
  = tickers warm !! k
  /\ tickers (snd (HUOBIHADAX.UpdateTicker (Sample.huobi Sample.huobiAccepting)
                     Sample.btcusd assets.AssetTypeSpot emptyWorld))
       !! mkkey "ITBIT" Sample.btcusd assets.AssetTypeSpot
     = None.
Proof.
  intros warm k.
  destruct (UpdateTicker_touches_only_its_key (Sample.itbit Sample.accepting)
              (Sample.huobi Sample.huobiAccepting) Sample.btcusd assets.AssetTypeSpot
              warm k) as (Hi & _).
  destruct (UpdateTicker_touches_only_its_key (Sample.itbit Sample.accepting)
              (Sample.huobi Sample.huobiAccepting) Sample.btcusd assets.AssetTypeSpot
              emptyWorld (mkkey "ITBIT" Sample.btcusd assets.AssetTypeSpot))
    as (_ & _ & _ & Hh & _).
  split.
  - apply Hi. discriminate.
  - apply Hh. discriminate.
Defined.

(** ** The order book cache *)

Lemma cache_GetOrderbook_hit venue p a ob w :
  orderbooks w !! mkkey venue p a = Some ob ->
  cache.GetOrderbook venue p a w = ((ob, None), w).
Proof. intros H. unfold cache.GetOrderbook. now rewrite H. Qed.

Lemma cache_GetOrderbook_miss venue p a w :
  orderbooks w !! mkkey venue p a = None ->
  exists e, cache.GetOrderbook venue p a w = ((orderbook.zero, Some e), w).
Proof. intros H. unfold cache.GetOrderbook. rewrite H. eauto. Qed.

(** X5. [ItBit.FetchOrderbook] is fetch-or-refresh: on a miss it is one
    [UpdateOrderbook] from the same world; on a hit it returns the
    cached snapshot and the world, with its requests and its log, is
    unchanged. *)
Theorem ItBit_FetchOrderbook_fetch_or_refresh :
  forall (i : ItBit.t) (p : pair.CurrencyPair) (a : assets.AssetType) (w : World),
    (orderbooks w !! mkkey (ItBit.Name i) p a = None ->
       ItBit.FetchOrderbook i p a w = ItBit.UpdateOrderbook i p a w)
    /\ (forall ob, orderbooks w !! mkkey (ItBit.Name i) p a = Some ob ->
          ItBit.FetchOrderbook i p a w = Some ((ob, None), w)).
Proof.
  intros i p a w. split.
  - intros H. destruct (cache_GetOrderbook_miss _ _ _ _ H) as [e He].
    unfold ItBit.FetchOrderbook, ItBit.GetName, exchange.GetName.
    unfold ItBit.Name in He. now rewrite He.
  - intros ob H.
    unfold ItBit.FetchOrderbook, ItBit.GetName, exchange.GetName.
    unfold ItBit.Name in H. now rewrite (cache_GetOrderbook_hit _ _ _ _ _ H).
Qed.

Lemma ItBit_FetchOrderbook_fetch_or_refresh_witness :
  let i := Sample.itbit Sample.accepting in
  ItBit.FetchOrderbook i Sample.btcusd assets.AssetTypeSpot emptyWorld
  = ItBit.UpdateOrderbook i Sample.btcusd assets.AssetTypeSpot emptyWorld
  /\ ItBit.FetchOrderbook i Sample.btcusd assets.AssetTypeSpot SampleOps.itbitWarm
     = Some ((SampleOps.itbitBook, None), SampleOps.itbitWarm).
Proof.
  intros i.
  destruct (ItBit_FetchOrderbook_fetch_or_refresh i Sample.btcusd
              assets.AssetTypeSpot emptyWorld) as [Hmiss _].
  destruct (ItBit_FetchOrderbook_fetch_or_refresh i Sample.btcusd
              assets.AssetTypeSpot SampleOps.itbitWarm) as [_ Hhit].
  split; [exact (Hmiss eq_refl)|].
  apply Hhit. vm_compute. reflexivity.
Defined.

(** X6. After a successful [ItBit.UpdateOrderbook] the snapshot it returned
    is the one stored: [FetchOrderbook] of the same key returns it and
    sends no request. *)
Theorem ItBit_UpdateOrderbook_then_fetch :
  forall (i : ItBit.t) (p : pair.CurrencyPair) (a : assets.AssetType) (w : World)
         (raw : itbitapi.OrderbookResponse),
    ItBit.orderbookAnswer (ItBit.venue i) (calls w)
      (exchange.FormatExchangeCurrency (ItBit.base i) p) = (raw, None) ->
    Forall (fun data : list string => (2 <= length data)%nat) (itbitapi.Bids raw) ->
    Forall (fun data : list string => (2 <= length data)%nat) (itbitapi.Asks raw) ->
    exists ob w',
      ItBit.UpdateOrderbook i p a w = Some ((ob, None), w')
      /\ length (orderbook.Bids ob) = length (itbitapi.Bids raw)
      /\ length (orderbook.Asks ob) = length (itbitapi.Asks raw)
      /\ ItBit.FetchOrderbook i p a w' = Some ((ob, None), w').
Proof.
  intros i p a w raw Hans Hbids Hasks.
  unfold ItBit.UpdateOrderbook, ItBit.GetOrderbook, rest. rewrite Hans.
  rewrite (appendLevels_spec _ Hbids), (appendLevels_spec _ Hasks).
  unfold mbind, M_bind, cache.ProcessOrderbook, cache.GetOrderbook.
  cbn [orderbooks logAll sent app].
  unfold ItBit.GetName, ItBit.Name, exchange.GetName.
  rewrite lookup_insert_eq.
  eexists. eexists. split; [reflexivity|].
  split; [cbn; now rewrite length_map|].
  split; [cbn; now rewrite length_map|].
  unfold ItBit.FetchOrderbook, ItBit.GetName, exchange.GetName.
  rewrite (cache_GetOrderbook_hit _ _ _ _ _ (lookup_insert_eq _ _ _)). reflexivity.
Qed.

Lemma ItBit_UpdateOrderbook_then_fetch_witness :
  exists ob w',
    ItBit.UpdateOrderbook (Sample.itbit Sample.accepting) Sample.btcusd
      assets.AssetTypeSpot emptyWorld = Some ((ob, None), w')
    /\ length (orderbook.Bids ob) = 2%nat
    /\ length (orderbook.Asks ob) = 2%nat
    /\ ItBit.FetchOrderbook (Sample.itbit Sample.accepting) Sample.btcusd
         assets.AssetTypeSpot w' = Some ((ob, None), w').
Proof.
  apply (ItBit_UpdateOrderbook_then_fetch (Sample.itbit Sample.accepting)
           Sample.btcusd assets.AssetTypeSpot emptyWorld Sample.depth).
  - reflexivity.
  - repeat constructor.
  - repeat constructor.
Defined.

(** X7. When the venue answers the depth request with an error,
    [ItBit.UpdateOrderbook] returns that error with an empty snapshot;
    whatever payload came with the error is not converted, nothing is
    logged and nothing is stored. *)
Theorem ItBit_UpdateOrderbook_failure :
  forall (i : ItBit.t) (p : pair.CurrencyPair) (a : assets.AssetType) (w : World)
         (raw : itbitapi.OrderbookResponse) (e : error),
    ItBit.orderbookAnswer (ItBit.venue i) (calls w)
      (exchange.FormatExchangeCurrency (ItBit.base i) p) = (raw, Some e) ->
    ItBit.UpdateOrderbook i p a w
    = Some ((orderbook.zero, Some e),
            sent (ItBitGetOrderbook (exchange.FormatExchangeCurrency (ItBit.base i) p)) w)
    /\ forall ob, orderbooks w !! mkkey (ItBit.Name i) p a = Some ob ->
         ItBit.FetchOrderbook i p a
           (sent (ItBitGetOrderbook (exchange.FormatExchangeCurrency (ItBit.base i) p)) w)
         = Some ((ob, None),
                 sent (ItBitGetOrderbook
                         (exchange.FormatExchangeCurrency (ItBit.base i) p)) w).
Proof.
  intros i p a w raw e Hans. split.
  - unfold ItBit.UpdateOrderbook, ItBit.GetOrderbook, rest. now rewrite Hans.
  - intros ob Hob.
    unfold ItBit.FetchOrderbook, ItBit.GetName, exchange.GetName.
    unfold ItBit.Name in Hob.
    now rewrite (cache_GetOrderbook_hit _ _ _ ob (sent _ w) Hob).
Qed.

Lemma ItBit_UpdateOrderbook_failure_witness :
  ItBit.UpdateOrderbook (Sample.itbit SampleOps.down) Sample.btcusd
    assets.AssetTypeSpot SampleOps.itbitWarm
  = Some ((orderbook.zero, Some (VenueError "timeout")),
          sent (ItBitGetOrderbook "BTCUSD") SampleOps.itbitWarm)
  /\ ItBit.FetchOrderbook (Sample.itbit SampleOps.down) Sample.btcusd
       assets.AssetTypeSpot (sent (ItBitGetOrderbook "BTCUSD") SampleOps.itbitWarm)
     = Some ((SampleOps.itbitBook, None),
             sent (ItBitGetOrderbook "BTCUSD") SampleOps.itbitWarm).
Proof.
  destruct (ItBit_UpdateOrderbook_failure (Sample.itbit SampleOps.down) Sample.btcusd
              assets.AssetTypeSpot SampleOps.itbitWarm Sample.depth
              (VenueError "timeout") eq_refl) as [H1 H2].
  split; [exact H1|]. apply H2. vm_compute. reflexivity.
Defined.

(** ** The HuobiHadax order book *)

Lemma HuobiOps_appendLevels_spec raw :
  Forall (fun data : list float64 => (2 <= length data)%nat) raw ->
  forall items, HuobiOps.appendLevels raw items = Some (items ++ map huobiLevel raw).
Proof.
  induction 1 as [|data raw Hlen _ IH]; intros items; cbn [HuobiOps.appendLevels].
  - cbn. now rewrite app_nil_r.
  - destruct data as [|d0 [|d1 rest]]; cbn in Hlen; try lia.
    cbn [lookup list_lookup]. rewrite IH, <- app_assoc. reflexivity.
Qed.

(** X8. When the depth request, made at the aggregation "step1", succeeds
    with levels of two numbers or more, [UpdateOrderbook] of
    HuobiHadax returns one level per raw level on each side, in the
    venue's order, the first number as the price and the second as the
    amount; the snapshot replaces the stored one, and the next
    [FetchOrderbook] returns it without running the depth request. *)
Theorem HuobiOps_UpdateOrderbook_levels :
  forall (GetDepth GetDepth' : string -> string -> M (HuobiOps.Orderbook * option error))
         (h : HUOBIHADAX.t) (p : pair.CurrencyPair) (a : assets.AssetType)
         (w w1 : World) (raw : HuobiOps.Orderbook),
    GetDepth (exchange.FormatExchangeCurrency (HUOBIHADAX.base h) p) "step1" w
    = ((raw, None), w1) ->
    Forall (fun data : list float64 => (2 <= length data)%nat) (HuobiOps.Bids raw) ->
    Forall (fun data : list float64 => (2 <= length data)%nat) (HuobiOps.Asks raw) ->
    let snapshot :=
      {| orderbook.Bids := map huobiLevel (HuobiOps.Bids raw);
         orderbook.Asks := map huobiLevel (HuobiOps.Asks raw) |} in
    let w' :=
      {| tickers := tickers w1;
         orderbooks := <[mkkey (HUOBIHADAX.Name h) p a := snapshot]> (orderbooks w1);
         logged := logged w1; calls := calls w1 |} in
    HuobiOps.UpdateOrderbook GetDepth h p a w = Some ((snapshot, None), w')
    /\ HuobiOps.FetchOrderbook GetDepth' h p a w' = Some ((snapshot, None), w').
Proof.
  intros GetDepth GetDepth' h p a w w1 raw Hans Hbids Hasks snapshot w'.
  split.
  - unfold HuobiOps.UpdateOrderbook. rewrite Hans.
    rewrite (HuobiOps_appendLevels_spec _ Hbids), (HuobiOps_appendLevels_spec _ Hasks).
    unfold mbind, M_bind, cache.ProcessOrderbook, cache.GetOrderbook.
    cbn [orderbooks app].
    unfold HUOBIHADAX.GetName, HUOBIHADAX.Name, exchange.GetName.
    rewrite lookup_insert_eq. reflexivity.
  - unfold HuobiOps.FetchOrderbook, HUOBIHADAX.GetName, exchange.GetName.
    rewrite (cache_GetOrderbook_hit _ _ _ snapshot w'); [reflexivity|].
    subst w'. cbn. apply lookup_insert_eq.
Qed.

Lemma HuobiOps_UpdateOrderbook_levels_witness :
  let snapshot :=
    {| orderbook.Bids :=
         [ {| orderbook.Amount := Sample.num 2; orderbook.Price := Sample.num 19999 |} ];
       orderbook.Asks :=
         [ {| orderbook.Amount := Sample.half; orderbook.Price := Sample.num 20001 |};
           {| orderbook.Amount := Sample.num 1; orderbook.Price := Sample.num 20002 |} ] |} in
  let w' :=
    {| tickers := ∅;
       orderbooks := <[mkkey "HuobiHadax" Sample.btcusd assets.AssetTypeSpot := snapshot]> ∅;
       logged := []; calls := [] |} in
  HuobiOps.UpdateOrderbook SampleOps.GetDepth (Sample.huobi Sample.huobiAccepting)
    Sample.btcusd assets.AssetTypeSpot emptyWorld = Some ((snapshot, None), w')
  /\ HuobiOps.FetchOrderbook SampleOps.GetDepthDown (Sample.huobi Sample.huobiAccepting)
       Sample.btcusd assets.AssetTypeSpot w' = Some ((snapshot, None), w').
Proof.
  apply (HuobiOps_UpdateOrderbook_levels SampleOps.GetDepth SampleOps.GetDepthDown
           (Sample.huobi Sample.huobiAccepting) Sample.btcusd assets.AssetTypeSpot
           emptyWorld emptyWorld SampleOps.depth).
  - reflexivity.
  - repeat constructor.
  - repeat constructor.
Defined.

(** X9. [FetchOrderbook] of HuobiHadax is fetch-or-refresh: a cached
    snapshot is returned as it is and the depth request is not run,
    whatever it would do; on a miss the call is one [UpdateOrderbook];
    and a depth request that fails makes [UpdateOrderbook] return its
    error with an empty snapshot and store nothing. *)
Theorem HuobiOps_FetchOrderbook_fetch_or_refresh :
  forall (GetDepth : string -> string -> M (HuobiOps.Orderbook * option error))
         (h : HUOBIHADAX.t) (p : pair.CurrencyPair) (a : assets.AssetType) (w : World),
    (forall ob, orderbooks w !! mkkey (HUOBIHADAX.Name h) p a = Some ob ->
       HuobiOps.FetchOrderbook GetDepth h p a w = Some ((ob, None), w))
    /\ (orderbooks w !! mkkey (HUOBIHADAX.Name h) p a = None ->
          HuobiOps.FetchOrderbook GetDepth h p a w
          = HuobiOps.UpdateOrderbook GetDepth h p a w)
    /\ (forall raw e w1,
           GetDepth (exchange.FormatExchangeCurrency (HUOBIHADAX.base h) p) "step1" w
           = ((raw, Some e), w1) ->
           HuobiOps.UpdateOrderbook GetDepth h p a w
           = Some ((orderbook.zero, Some e), w1)).
Proof.
  intros GetDepth h p a w. split; [|split].
  - intros ob H.
    unfold HuobiOps.FetchOrderbook, HUOBIHADAX.GetName, exchange.GetName.
    unfold HUOBIHADAX.Name in H. now rewrite (cache_GetOrderbook_hit _ _ _ _ _ H).
  - intros H. destruct (cache_GetOrderbook_miss _ _ _ _ H) as [e He].
    unfold HuobiOps.FetchOrderbook, HUOBIHADAX.GetName, exchange.GetName.
    unfold HUOBIHADAX.Name in He. now rewrite He.
  - intros raw e w1 Hans. unfold HuobiOps.UpdateOrderbook. now rewrite Hans.
Qed.

Lemma HuobiOps_FetchOrderbook_fetch_or_refresh_witness :
  let h := Sample.huobi Sample.huobiAccepting in
  HuobiOps.FetchOrderbook SampleOps.GetDepth h Sample.btcusd assets.AssetTypeSpot
    emptyWorld
  = HuobiOps.UpdateOrderbook SampleOps.GetDepth h Sample.btcusd assets.AssetTypeSpot
      emptyWorld
  /\ HuobiOps.UpdateOrderbook SampleOps.GetDepthDown h Sample.btcusd
       assets.AssetTypeSpot emptyWorld
     = Some ((orderbook.zero, Some (VenueError "timeout")), emptyWorld).
Proof.
  intros h.
  destruct (HuobiOps_FetchOrderbook_fetch_or_refresh SampleOps.GetDepth h
              Sample.btcusd assets.AssetTypeSpot emptyWorld) as (_ & Hmiss & _).
  destruct (HuobiOps_FetchOrderbook_fetch_or_refresh SampleOps.GetDepthDown h
              Sample.btcusd assets.AssetTypeSpot emptyWorld) as (_ & _ & Hfail).
  split.
  - apply Hmiss. reflexivity.
  - apply (Hfail {| HuobiOps.Bids := []; HuobiOps.Asks := [] |}
             (VenueError "timeout") emptyWorld). reflexivity.
Defined.

(** ** The tradable pairs of HuobiHadax *)

Lemma appendPairs_spec symbols pairs :
  HuobiOps.appendPairs symbols pairs
  = pairs ++ map (fun x => HuobiOps.BaseCurrency x +:+ "-" +:+ HuobiOps.QuoteCurrency x)
               symbols.
Proof.
  revert pairs. induction symbols as [|x symbols IH]; intros pairs; cbn.
  - now rewrite app_nil_r.
  - rewrite IH, <- app_assoc. reflexivity.
Qed.

(** X10. [FetchTradablePairs] of HuobiHadax returns one pair per symbol of
    the venue's catalogue, in the catalogue's order, each the base,
    a dash and the quote as the venue spells them; when the catalogue
    request fails it returns that error and no pair. *)
Theorem HuobiOps_FetchTradablePairs_catalogue :
  forall (GetSymbols : M (list HuobiOps.Symbol * option error)) (h : HUOBIHADAX.t)
         (w w1 : World) (symbols : list HuobiOps.Symbol),
    (GetSymbols w = ((symbols, None), w1) ->
       HuobiOps.FetchTradablePairs GetSymbols h w
       = ((map (fun x => HuobiOps.BaseCurrency x +:+ "-" +:+ HuobiOps.QuoteCurrency x)
             symbols, None), w1))
    /\ (forall e, GetSymbols w = ((symbols, Some e), w1) ->
          HuobiOps.FetchTradablePairs GetSymbols h w = (([], Some e), w1)).
Proof.
  intros GetSymbols h w w1 symbols. split.
  - intros H. unfold HuobiOps.FetchTradablePairs, mbind, M_bind. rewrite H.
    now rewrite appendPairs_spec.
  - intros e H. unfold HuobiOps.FetchTradablePairs, mbind, M_bind. now rewrite H.
Qed.

Lemma HuobiOps_FetchTradablePairs_catalogue_witness :
  HuobiOps.FetchTradablePairs SampleOps.GetSymbols (Sample.huobi Sample.huobiAccepting)
    emptyWorld
  = ((["btc-usdt"; "eth-btc"], None), emptyWorld)
  /\ HuobiOps.FetchTradablePairs SampleOps.GetSymbolsDown
       (Sample.huobi Sample.huobiAccepting) emptyWorld
     = (([], Some (VenueError "timeout")), emptyWorld).
Proof.
  split.
  - apply (HuobiOps_FetchTradablePairs_catalogue SampleOps.GetSymbols
             (Sample.huobi Sample.huobiAccepting) emptyWorld emptyWorld
             SampleOps.symbols). reflexivity.
  - apply (HuobiOps_FetchTradablePairs_catalogue SampleOps.GetSymbolsDown
             (Sample.huobi Sample.huobiAccepting) emptyWorld emptyWorld []).
    reflexivity.
Defined.

(** X11. [UpdateTradablePairs] of HuobiHadax hands the fetched pairs to
    [UpdatePairs] with the enabled flag false and the caller's force
    flag, and returns what [UpdatePairs] returns; when the catalogue
    request fails it returns that error and [UpdatePairs] is not run,
    so the stored pair list is left alone. *)
Theorem HuobiOps_UpdateTradablePairs_propagates :
  forall (GetSymbols : M (list HuobiOps.Symbol * option error))
         (UpdatePairs : list string -> bool -> bool -> M (option error))
         (h : HUOBIHADAX.t) (forceUpdate : bool) (w w1 : World)
         (symbols : list HuobiOps.Symbol),
    (GetSymbols w = ((symbols, None), w1) ->
       HuobiOps.UpdateTradablePairs GetSymbols UpdatePairs h forceUpdate w
       = UpdatePairs
           (map (fun x => HuobiOps.BaseCurrency x +:+ "-" +:+ HuobiOps.QuoteCurrency x)
              symbols)
           false forceUpdate w1)
    /\ (forall e, GetSymbols w = ((symbols, Some e), w1) ->
          HuobiOps.UpdateTradablePairs GetSymbols UpdatePairs h forceUpdate w
          = (Some e, w1)).
Proof.
  intros GetSymbols UpdatePairs h forceUpdate w w1 symbols. split.
  - intros H.
    unfold HuobiOps.UpdateTradablePairs, HuobiOps.FetchTradablePairs, mbind, M_bind.
    rewrite H. cbn. now rewrite appendPairs_spec.
  - intros e H.
    unfold HuobiOps.UpdateTradablePairs, HuobiOps.FetchTradablePairs, mbind, M_bind.
    now rewrite H.
Qed.

Lemma HuobiOps_UpdateTradablePairs_propagates_witness :
  HuobiOps.UpdateTradablePairs SampleOps.GetSymbols SampleOps.UpdatePairs
    (Sample.huobi Sample.huobiAccepting) false emptyWorld
  = SampleOps.UpdatePairs ["btc-usdt"; "eth-btc"] false false emptyWorld
  /\ HuobiOps.UpdateTradablePairs SampleOps.GetSymbolsDown SampleOps.UpdatePairs
       (Sample.huobi Sample.huobiAccepting) false emptyWorld
     = (Some (VenueError "timeout"), emptyWorld).
Proof.
  split.
  - apply (HuobiOps_UpdateTradablePairs_propagates SampleOps.GetSymbols
             SampleOps.UpdatePairs (Sample.huobi Sample.huobiAccepting) false
             emptyWorld emptyWorld SampleOps.symbols). reflexivity.
  - apply (HuobiOps_UpdateTradablePairs_propagates SampleOps.GetSymbolsDown
             SampleOps.UpdatePairs (Sample.huobi Sample.huobiAccepting) false
             emptyWorld emptyWorld []). reflexivity.
Defined.

(** ** Decimal identifiers *)

Lemma digit_pretty_N_char d :
  (d < 10)%N -> strconv.digit (pretty_N_char d) = Some (Z.of_N d).
Proof.
  intros H.
  assert (d = 0 \/ d = 1 \/ d = 2 \/ d = 3 \/ d = 4 \/ d = 5 \/ d = 6 \/ d = 7
          \/ d = 8 \/ d = 9)%N as Hd by lia.
  repeat (destruct Hd as [->|Hd]; [reflexivity|]). now subst.
Qed.

Lemma pretty_N_char_not_underscore d :
  (d < 10)%N -> Ascii.eqb (pretty_N_char d) "_" = false.
Proof.
  intros H.
  assert (d = 0 \/ d = 1 \/ d = 2 \/ d = 3 \/ d = 4 \/ d = 5 \/ d = 6 \/ d = 7
          \/ d = 8 \/ d = 9)%N as Hd by lia.
  repeat (destruct Hd as [->|Hd]; [reflexivity|]). now subst.
Qed.

Lemma parseDigits_pretty_N_go x :
  forall b s us, Z.of_N x <= strconv.maxUint64 ->
    strconv.parseDigits b 10 (pretty_N_go x s) 0 us
    = strconv.parseDigits b 10 s (Z.of_N x) us.
Proof.
  induction (N.lt_wf_0 x) as [x _ IH]. intros b s us Hx.
  destruct (N.eq_dec x 0%N) as [->|Hne]; [reflexivity|].
  assert (0 < x)%N as Hpos by lia.
  rewrite (pretty_N_go_step x s Hpos).
  assert (Hdiv : Z.of_N (x `div` 10) = Z.of_N x / 10) by (now rewrite N2Z.inj_div).
  assert (Hmod : Z.of_N (x `mod` 10) = Z.of_N x mod 10) by (now rewrite N2Z.inj_mod).
  unfold strconv.maxUint64 in *.
  change (2 ^ 64 - 1) with 18446744073709551615 in *.
  rewrite IH.
  - cbn [strconv.parseDigits].
    rewrite pretty_N_char_not_underscore by (apply N.mod_lt; lia). cbn [andb].
    rewrite digit_pretty_N_char by (apply N.mod_lt; lia).
    rewrite Hdiv, Hmod. unfold strconv.maxUint64.
    change (2 ^ 64 - 1) with 18446744073709551615.
    change (18446744073709551615 / 10 + 1) with 1844674407370955162.
    assert (H1 : (10 <=? Z.of_N x mod 10) = false)
      by (apply Z.leb_gt; apply Z.mod_pos_bound; lia).
    assert (H2 : (1844674407370955162 <=? Z.of_N x / 10) = false)
      by (apply Z.leb_gt; apply Z.div_lt_upper_bound; lia).
    assert (H3 : Z.of_N x / 10 * 10 + Z.of_N x mod 10 = Z.of_N x)
      by (rewrite Z.mul_comm; symmetry; apply Z.div_mod; lia).
    rewrite H1, H2. cbn zeta. rewrite H3.
    assert (H4 : (18446744073709551615 <? Z.of_N x) = false) by (apply Z.ltb_ge; lia).
    now rewrite H4.
  - apply N.div_lt; lia.
  - rewrite Hdiv. apply Z.le_trans with (Z.of_N x); [|lia].
    apply Z.div_le_upper_bound; lia.
Qed.

(** The decimal of a positive number starts with a digit from 1 to 9. *)
Lemma pretty_N_go_head x :
  forall s, (0 < x)%N ->
    exists d s', (0 < d < 10)%N /\ pretty_N_go x s = String (pretty_N_char d) s'.
Proof.
  induction (N.lt_wf_0 x) as [x _ IH]. intros s Hpos.
  rewrite (pretty_N_go_step x s Hpos).
  destruct (N.eq_dec (x `div` 10)%N 0%N) as [Hz|Hnz].
  - rewrite Hz, pretty_N_go_0. exists (x `mod` 10)%N. eexists. split; [|reflexivity].
    assert (x = 10 * (x `div` 10) + x `mod` 10)%N by (apply N.div_mod; lia).
    assert (x `mod` 10 < 10)%N by (apply N.mod_lt; lia). lia.
  - apply IH; [apply N.div_lt; lia | now apply N.neq_0_lt_0].
Qed.

Lemma pretty_N_char_head d :
  (0 < d < 10)%N ->
  Ascii.eqb (pretty_N_char d) "-" = false
  /\ Ascii.eqb (pretty_N_char d) "+" = false
  /\ Ascii.eqb (pretty_N_char d) "0" = false.
Proof.
  intros H.
  assert (d = 1 \/ d = 2 \/ d = 3 \/ d = 4 \/ d = 5 \/ d = 6 \/ d = 7
          \/ d = 8 \/ d = 9)%N as Hd by lia.
  repeat (destruct Hd as [->|Hd]; [repeat split; reflexivity|]).
  subst. repeat split; reflexivity.
Qed.

Lemma pretty_positive_go (q : positive) : pretty (Zpos q) = pretty_N_go (Npos q) "".
Proof. reflexivity. Qed.

Lemma parseUint0_head d s' :
  (0 < d < 10)%N ->
  strconv.parseUint0 (String (pretty_N_char d) s')
  = match strconv.parseDigits true 10 (String (pretty_N_char d) s') 0 false with
    | (n, Some e, _) => (n, Some e)
    | (n, None, underscores) =>
        if (underscores
            && negb (strconv.underscoreOK (String (pretty_N_char d) s')))%bool
        then (0, Some ErrSyntax)
        else (n, None)
    end.
Proof.
  intros H.
  assert (d = 1 \/ d = 2 \/ d = 3 \/ d = 4 \/ d = 5 \/ d = 6 \/ d = 7
          \/ d = 8 \/ d = 9)%N as Hd by lia.
  repeat (destruct Hd as [->|Hd]; [reflexivity|]). now subst.
Qed.

(** Every int64 written in decimal is read back by [ParseInt], in base
    10 and with the base left to the prefix. *)
Lemma ParseInt_pretty z :
  - 2 ^ 63 <= z < 2 ^ 63 ->
  strconv10.ParseInt (pretty z) = (z, None)
  /\ strconv.ParseInt (pretty z) = (z, None).
Proof.
  intros Hz. change (2 ^ 63) with 9223372036854775808 in Hz.
  destruct z as [|q|q]; [split; reflexivity| |].
  - rewrite pretty_positive_go.
    destruct (pretty_N_go_head (Npos q) "" eq_refl) as (d & s' & Hd & Heq).
    destruct (pretty_N_char_head d Hd) as (Hm & Hp & _).
    assert (Hdig : forall b,
               strconv.parseDigits b 10 (pretty_N_go (N.pos q) "") 0 false
               = (Zpos q, None, false)).
    { intros b. rewrite parseDigits_pretty_N_go; [reflexivity|].
      unfold strconv.maxUint64. change (2 ^ 64 - 1) with 18446744073709551615.
      cbn. lia. }
    assert (Hlt : (9223372036854775808 <=? Z.pos q) = false) by (apply Z.leb_gt; lia).
    split.
    + unfold strconv10.ParseInt. rewrite Heq, Hm, Hp. cbn [orb].
      unfold strconv10.parseUint. rewrite <- Heq, Hdig. cbn [fst].
      change (2 ^ 63) with 9223372036854775808. now rewrite Hlt.
    + unfold strconv.ParseInt. rewrite Heq, Hm, Hp. cbn [orb].
      rewrite (parseUint0_head d s' Hd), <- Heq, Hdig. cbn [andb].
      change (2 ^ 63) with 9223372036854775808. now rewrite Hlt.
  - assert (Hpre : pretty (Z.neg q) = String "-" (pretty_N_go (N.pos q) ""))
      by reflexivity.
    rewrite Hpre.
    destruct (pretty_N_go_head (Npos q) "" eq_refl) as (d & s' & Hd & Heq).
    assert (Hdig : forall b,
               strconv.parseDigits b 10 (pretty_N_go (N.pos q) "") 0 false
               = (Zpos q, None, false)).
    { intros b. rewrite parseDigits_pretty_N_go; [reflexivity|].
      unfold strconv.maxUint64. change (2 ^ 64 - 1) with 18446744073709551615.
      cbn. lia. }
    assert (Hlt : (9223372036854775808 <? Z.pos q) = false) by (apply Z.ltb_ge; lia).
    split.
    + unfold strconv10.ParseInt. cbn [Ascii.eqb Bool.eqb orb negb andb].
      unfold strconv10.parseUint. rewrite Heq at 1. rewrite Hdig. cbn [fst].
      change (2 ^ 63) with 9223372036854775808. now rewrite Hlt.
    + unfold strconv.ParseInt. cbn [Ascii.eqb Bool.eqb orb negb andb].
      rewrite Heq, (parseUint0_head d s' Hd), <- Heq, Hdig. cbn [andb].
      change (2 ^ 63) with 9223372036854775808. now rewrite Hlt.
Qed.

(** ** Cancelling an order on HuobiHadax *)

(** An error of the base-10 [ParseInt] is a [NumError] on its input. *)
Lemma ParseInt10_error s e :
  snd (strconv10.ParseInt s) = Some e ->
  exists kind, e = NumError "ParseInt" s kind.
Proof.
  unfold strconv10.ParseInt. destruct s as [|c s].
  - cbn. intros H. injection H as <-. eauto.
  - cbn zeta. destruct (strconv10.parseUint _) as [un [[|]|]]; cbn [snd].
    + intros H. injection H as <-. eauto.
    + destruct (negb _ && _)%bool; [intros H; injection H as <-; eauto|].
      destruct (_ && _)%bool; [intros H; injection H as <-; eauto|discriminate].
    + destruct (negb _ && _)%bool; [intros H; injection H as <-; eauto|].
      destruct (_ && _)%bool; [intros H; injection H as <-; eauto|discriminate].
Qed.

(** X12. When the order identifier is not a base-10 int64, [CancelOrder] of
    HuobiHadax returns the conversion error, which names the
    identifier, and the cancellation request is not run: the world is
    unchanged whatever the request would do. *)
Theorem HuobiOps_CancelOrder_reports_bad_identifier :
  forall (CancelExistingOrder : Z -> M (Z * option error)) (h : HUOBIHADAX.t)
         (order : cancellation.OrderCancellation) (w : World) (e : error),
    snd (strconv10.ParseInt (cancellation.OrderID order)) = Some e ->
    HuobiOps.CancelOrder CancelExistingOrder h order w = (Some e, w)
    /\ exists kind, e = NumError "ParseInt" (cancellation.OrderID order) kind.
Proof.
  intros C h order w e He. split; [|now apply ParseInt10_error].
  unfold HuobiOps.CancelOrder.
  destruct (strconv10.ParseInt (cancellation.OrderID order)) as [n err].
  cbn in He. now rewrite He.
Qed.

Lemma HuobiOps_CancelOrder_reports_bad_identifier_witness :
  HuobiOps.CancelOrder SampleOps.CancelExistingOrder (Sample.huobi Sample.huobiAccepting)
    {| cancellation.AccountID := "7"; cancellation.OrderID := "0x2A";
       cancellation.WalletAddress := "" |} emptyWorld
  = (Some (NumError "ParseInt" "0x2A" ErrSyntax), emptyWorld)
  /\ exists kind, NumError "ParseInt" "0x2A" ErrSyntax = NumError "ParseInt" "0x2A" kind.
Proof.
  apply (HuobiOps_CancelOrder_reports_bad_identifier SampleOps.CancelExistingOrder
           (Sample.huobi Sample.huobiAccepting)
           {| cancellation.AccountID := "7"; cancellation.OrderID := "0x2A";
              cancellation.WalletAddress := "" |} emptyWorld
           (NumError "ParseInt" "0x2A" ErrSyntax)).
  reflexivity.
Defined.

(** X13. When the order identifier is the decimal of an int64 [n],
    [CancelOrder] of HuobiHadax runs the cancellation request on [n]
    and returns its error, dropping the number it answers. *)
Theorem HuobiOps_CancelOrder_decimal :
  forall (CancelExistingOrder : Z -> M (Z * option error)) (h : HUOBIHADAX.t)
         (order : cancellation.OrderCancellation) (w : World) (n : Z),
    - 2 ^ 63 <= n < 2 ^ 63 ->
    cancellation.OrderID order = pretty n ->
    HuobiOps.CancelOrder CancelExistingOrder h order w
    = (snd (fst (CancelExistingOrder n w)), snd (CancelExistingOrder n w)).
Proof.
  intros C h order w n Hn Hid. unfold HuobiOps.CancelOrder.
  rewrite Hid. destruct (ParseInt_pretty n Hn) as [H10 _]. rewrite H10.
  unfold mbind, M_bind, mret, M_ret.
  now destruct (C n w) as [[k err] w'].
Qed.

Lemma HuobiOps_CancelOrder_decimal_witness :
  HuobiOps.CancelOrder SampleOps.CancelExistingOrder (Sample.huobi Sample.huobiAccepting)
    {| cancellation.AccountID := "7"; cancellation.OrderID := "42";
       cancellation.WalletAddress := "" |} emptyWorld
  = (snd (fst (SampleOps.CancelExistingOrder 42 emptyWorld)),
     snd (SampleOps.CancelExistingOrder 42 emptyWorld)).
Proof.
  apply (HuobiOps_CancelOrder_decimal SampleOps.CancelExistingOrder
           (Sample.huobi Sample.huobiAccepting)
           {| cancellation.AccountID := "7"; cancellation.OrderID := "42";
              cancellation.WalletAddress := "" |} emptyWorld 42).
  - vm_compute. split; [discriminate|reflexivity].
  - reflexivity.
Defined.

(** The decimal of a positive number is not the empty string. *)
Lemma pretty_pos_nonempty z : 0 < z -> pretty z <> "".
Proof.
  intros Hz. destruct z as [|q|q]; try lia.
  rewrite pretty_positive_go.
  destruct (pretty_N_go_head (Npos q) "" eq_refl) as (d & s' & _ & Heq).
  rewrite Heq. discriminate.
Qed.

(** X14. The identifier [SubmitOrder] of HuobiHadax returns is empty exactly
    when the venue's order number is not positive, whatever the error:
    a placement without error and with the number 0 is reported as
    placed with an empty identifier. *)
Theorem HUOBIHADAX_SubmitOrder_identifier_empty_iff :
  forall (h : HUOBIHADAX.t) (p : pair.CurrencyPair) (side : exchange.OrderSide)
         (ty : exchange.OrderType) (amount price : float64) (cid : string) (w : World)
         (response : Z) (err : option error),
    inMatrix side ty = true ->
    HUOBIHADAX.spotNewOrderAnswer (HUOBIHADAX.venue h) (calls w)
      (orderParams p (fst (strconv.ParseInt cid)) amount
         (if String.eqb ty exchange.Limit then price else float64.zero)
         (nativeType side ty))
    = (response, err) ->
    let r := fst (fst (HUOBIHADAX.SubmitOrder h p side ty amount price cid w)) in
    (exchange.OrderID r = "" <-> response <= 0)
    /\ (0 < response -> exchange.OrderID r = pretty response)
    /\ exchange.IsOrderPlaced r = isNil err.
Proof.
  intros h p side ty amount price cid w response err Hin Hans r. subst r.
  rewrite (HUOBIHADAX_SubmitOrder_eq _ _ _ _ _ _ _ _ Hin). cbn zeta.
  rewrite Hans. cbn [fst exchange.OrderID exchange.IsOrderPlaced].
  destruct (0 <? response) eqn:Hpos.
  - apply Z.ltb_lt in Hpos. split; [|split].
    + split; [|lia].
      intros Hempty. now destruct (pretty_pos_nonempty response Hpos).
    + reflexivity.
    + reflexivity.
  - apply Z.ltb_ge in Hpos. split; [|split].
    + split; [now intros _ | reflexivity].
    + lia.
    + reflexivity.
Qed.

Lemma HUOBIHADAX_SubmitOrder_identifier_empty_iff_witness :
  let r := fst (fst (HUOBIHADAX.SubmitOrder (Sample.huobi SampleOps.huobiDown)
                       Sample.btcusd exchange.Buy exchange.Limit (Sample.num 1)
                       (Sample.num 20000) "7" emptyWorld)) in
  (exchange.OrderID r = "" <-> 0 <= 0)
  /\ (0 < 0 -> exchange.OrderID r = pretty 0)
  /\ exchange.IsOrderPlaced r = false.
Proof.
  apply (HUOBIHADAX_SubmitOrder_identifier_empty_iff (Sample.huobi SampleOps.huobiDown)
           Sample.btcusd exchange.Buy exchange.Limit (Sample.num 1) (Sample.num 20000)
           "7" emptyWorld 0 (Some (VenueError "timeout"))).
  - reflexivity.
  - reflexivity.
Defined.

(** X15. The identifier a HuobiHadax placement returns can be handed back:
    when the venue numbers the order [response], a positive int64,
    [CancelOrder] on the [OrderID] of the result runs the cancellation
    request on that same number. *)
Theorem HUOBIHADAX_SubmitOrder_then_CancelOrder :
  forall (CancelExistingOrder : Z -> M (Z * option error)) (h : HUOBIHADAX.t)
         (p : pair.CurrencyPair) (side : exchange.OrderSide) (ty : exchange.OrderType)
         (amount price : float64) (cid : string) (w w2 : World)
         (response : Z) (err : option error) (order : cancellation.OrderCancellation),
    inMatrix side ty = true ->
    HUOBIHADAX.spotNewOrderAnswer (HUOBIHADAX.venue h) (calls w)
      (orderParams p (fst (strconv.ParseInt cid)) amount
         (if String.eqb ty exchange.Limit then price else float64.zero)
         (nativeType side ty))
    = (response, err) ->
    0 < response < 2 ^ 63 ->
    cancellation.OrderID order
    = exchange.OrderID (fst (fst (HUOBIHADAX.SubmitOrder h p side ty amount price cid w))) ->
    HuobiOps.CancelOrder CancelExistingOrder h order w2
    = (snd (fst (CancelExistingOrder response w2)),
       snd (CancelExistingOrder response w2)).
Proof.
  intros C h p side ty amount price cid w w2 response err order Hin Hans Hr Hid.
  rewrite (HUOBIHADAX_SubmitOrder_eq _ _ _ _ _ _ _ _ Hin) in Hid. cbn zeta in Hid.
  rewrite Hans in Hid. cbn [fst exchange.OrderID] in Hid.
  assert (Hpos : (0 <? response) = true) by (apply Z.ltb_lt; lia).
  rewrite Hpos in Hid.
  unfold HuobiOps.CancelOrder. rewrite Hid.
  assert (Hn : - 2 ^ 63 <= response < 2 ^ 63).
  { change (2 ^ 63) with 9223372036854775808 in *. lia. }
  destruct (ParseInt_pretty response Hn) as [H10 _]. rewrite H10.
  unfold mbind, M_bind, mret, M_ret.
  now destruct (C response w2) as [[k e] w'].
Qed.

Lemma HUOBIHADAX_SubmitOrder_then_CancelOrder_witness :
  HuobiOps.CancelOrder SampleOps.CancelExistingOrder (Sample.huobi Sample.huobiAccepting)
    {| cancellation.AccountID := "7";
       cancellation.OrderID :=
         exchange.OrderID
           (fst (fst (HUOBIHADAX.SubmitOrder (Sample.huobi Sample.huobiAccepting)
                        Sample.btcusd exchange.Buy exchange.Limit (Sample.num 1)
                        (Sample.num 20000) "7" emptyWorld)));
       cancellation.WalletAddress := "" |} emptyWorld
  = (snd (fst (SampleOps.CancelExistingOrder 42 emptyWorld)),
     snd (SampleOps.CancelExistingOrder 42 emptyWorld)).
Proof.
  apply (HUOBIHADAX_SubmitOrder_then_CancelOrder SampleOps.CancelExistingOrder
           (Sample.huobi Sample.huobiAccepting) Sample.btcusd exchange.Buy
           exchange.Limit (Sample.num 1) (Sample.num 20000) "7" emptyWorld emptyWorld
           42 None).
  - reflexivity.
  - reflexivity.
  - vm_compute. split; reflexivity.
  - reflexivity.
Defined.

(** ** The account of a HuobiHadax order *)

(** A range error of [ParseInt] comes with the nearest int64. *)
Lemma ParseInt_range_value s fn num :
  snd (strconv.ParseInt s) = Some (NumError fn num ErrRange) ->
  fst (strconv.ParseInt s) = 2 ^ 63 - 1 \/ fst (strconv.ParseInt s) = - 2 ^ 63.
Proof.
  unfold strconv.ParseInt. destruct s as [|c s]; [discriminate|].
  cbn zeta.
  destruct (strconv.parseUint0 _) as [un [[|]|]]; cbn [fst snd]; [discriminate| |].
  - destruct (negb _ && _)%bool; [now left|].
    destruct (_ && _)%bool; [now right|discriminate].
  - destruct (negb _ && _)%bool; [now left|].
    destruct (_ && _)%bool; [now right|discriminate].
Qed.

(** X16. The account of the placement request is what [ParseInt] makes of
    [clientID], error or not: a decimal int64 [n] gives the account
    [n]; an identifier out of the int64 range gives the account
    2^63 - 1 or -2^63, and the order is still sent. *)
Theorem HUOBIHADAX_SubmitOrder_account :
  forall (h : HUOBIHADAX.t) (p : pair.CurrencyPair) (side : exchange.OrderSide)
         (ty : exchange.OrderType) (amount price : float64) (clientID : string)
         (w : World),
    inMatrix side ty = true ->
    exists params,
      calls (snd (HUOBIHADAX.SubmitOrder h p side ty amount price clientID w))
      = calls w ++ [HuobiSpotNewOrder params]
      /\ huobiapi.Amount params = amount
      /\ huobiapi.Source params = "api"
      /\ huobiapi.Symbol params = common.StringToLower (pair.Pair p)
      /\ (forall n, - 2 ^ 63 <= n < 2 ^ 63 -> clientID = pretty n ->
            huobiapi.AccountID params = n)
      /\ (forall fn num,
            snd (strconv.ParseInt clientID) = Some (NumError fn num ErrRange) ->
            huobiapi.AccountID params = 2 ^ 63 - 1
            \/ huobiapi.AccountID params = - 2 ^ 63).
Proof.
  intros h p side ty amount price clientID w Hin.
  rewrite (HUOBIHADAX_SubmitOrder_eq _ _ _ _ _ _ _ _ Hin). cbn zeta.
  destruct (HUOBIHADAX.spotNewOrderAnswer _ _ _) as [response err].
  eexists. split; [reflexivity|].
  repeat (split; [reflexivity|]).
  cbn [orderParams huobiapi.AccountID]. split.
  - intros n Hn ->. destruct (ParseInt_pretty n Hn) as [_ H0]. now rewrite H0.
  - intros fn num Hr. now apply (ParseInt_range_value _ fn num).
Qed.

Lemma HUOBIHADAX_SubmitOrder_account_witness :
  (exists params,
      calls (snd (HUOBIHADAX.SubmitOrder (Sample.huobi Sample.huobiAccepting)
                    Sample.btcusd exchange.Buy exchange.Limit (Sample.num 1)
                    (Sample.num 20000) "99999999999999999999" emptyWorld))
      = [HuobiSpotNewOrder params]
      /\ (huobiapi.AccountID params = 2 ^ 63 - 1
          \/ huobiapi.AccountID params = - 2 ^ 63))
  /\ (exists params,
         calls (snd (HUOBIHADAX.SubmitOrder (Sample.huobi Sample.huobiAccepting)
                       Sample.btcusd exchange.Buy exchange.Limit (Sample.num 1)
                       (Sample.num 20000) "7" emptyWorld))
         = [HuobiSpotNewOrder params]
         /\ huobiapi.AccountID params = 7).
Proof.
  split.
  - destruct (HUOBIHADAX_SubmitOrder_account (Sample.huobi Sample.huobiAccepting)
                Sample.btcusd exchange.Buy exchange.Limit (Sample.num 1)
                (Sample.num 20000) "99999999999999999999" emptyWorld eq_refl)
      as (params & Hcalls & _ & _ & _ & _ & Hrange).
    exists params. split; [exact Hcalls|].
    apply (Hrange "ParseInt" "99999999999999999999"). vm_compute. reflexivity.
  - destruct (HUOBIHADAX_SubmitOrder_account (Sample.huobi Sample.huobiAccepting)
                Sample.btcusd exchange.Buy exchange.Limit (Sample.num 1)
                (Sample.num 20000) "7" emptyWorld eq_refl)
      as (params & Hcalls & _ & _ & _ & Hdec & _).
    exists params. split; [exact Hcalls|].
    apply Hdec; [vm_compute; split; [discriminate|reflexivity] | reflexivity].
Defined.

(** ** The wallet of an ItBit order *)

(** Where the wallet search ends: on the wallet it started with, or
    on the identifier of an enumerated wallet that qualifies. *)
Lemma scanWallets_origin wallets cur amount wallet :
  ItBit.scanWallets wallets cur amount wallet = wallet
  \/ exists wl, In wl wallets
                /\ qualifies cur amount wl = true
                /\ ItBit.scanWallets wallets cur amount wallet = itbitapi.ID wl.
Proof.
  revert wallet. induction wallets as [|x wallets IH]; intros wallet; [now left|].
  rewrite scanWallets_cons.
  destruct (IH (if qualifies cur amount x then itbitapi.ID x else wallet))
    as [Heq|(wl & Hin & Hq & Heq)].
  - rewrite Heq. destruct (qualifies cur amount x) eqn:Hq; [|now left].
    right. exists x. split; [now left|]. now split.
  - right. exists wl. split; [now right|]. now split.
Qed.

(** X17. [ItBit.SubmitOrder] never places an order on a wallet that cannot
    fund it.  After a successful enumeration the requests are either
    the enumeration alone, or the enumeration and one placement on an
    enumerated wallet that holds the base currency with at least
    [amount] available; the placement carries the base currency, the
    amount, the price and the pair of the call and an empty client
    reference, whatever [clientID] is. *)
Theorem ItBit_SubmitOrder_places_on_funded_wallet :
  forall (i : ItBit.t) (p : pair.CurrencyPair) (side : exchange.OrderSide)
         (ty : exchange.OrderType) (amount price : float64) (clientID : string)
         (w : World) (wallets : list itbitapi.Wallet),
    ItBit.walletsAnswer (ItBit.venue i) (calls w) = (wallets, None) ->
    calls (snd (ItBit.SubmitOrder i p side ty amount price clientID w))
    = calls w ++ [ItBitGetWallets]
    \/ exists wl,
         In wl wallets
         /\ qualifies (pair.FirstCurrency p) amount wl = true
         /\ calls (snd (ItBit.SubmitOrder i p side ty amount price clientID w))
            = calls w
              ++ [ItBitGetWallets;
                  ItBitPlaceOrder
                    {| itbitapi.walletID := itbitapi.ID wl;
                       itbitapi.side := side;
                       itbitapi.orderType := ty;
                       itbitapi.currency := pair.FirstCurrency p;
                       itbitapi.amount := amount;
                       itbitapi.price := price;
                       itbitapi.instrument := pair.Pair p;
                       itbitapi.clientRef := "" |}].
Proof.
  intros i p side ty amount price clientID w wallets Hw.
  destruct (String.eqb (ItBit.scanWallets wallets (pair.FirstCurrency p) amount "") "")
    eqn:Hempty.
  - left. rewrite ItBit_SubmitOrder_eq, Hw. cbn zeta. now rewrite Hempty.
  - apply String.eqb_neq in Hempty.
    destruct (scanWallets_origin wallets (pair.FirstCurrency p) amount "")
      as [Heq|(wl & Hin & Hq & Heq)]; [contradiction|].
    right. exists wl. split; [exact Hin|]. split; [exact Hq|].
    rewrite (ItBit_SubmitOrder_placement_calls _ _ _ _ _ _ _ _ _ Hw Hempty).
    now rewrite Heq.
Qed.

Lemma ItBit_SubmitOrder_places_on_funded_wallet_witness :
  let run := ItBit.SubmitOrder (Sample.itbit Sample.poor) Sample.btcusd
               exchange.Sell exchange.Market Sample.half (Sample.num 20000)
               "client-7" emptyWorld in
  calls (snd run) = [ItBitGetWallets]
  \/ exists wl,
       In wl [Sample.walletPoor]
       /\ qualifies "BTC" Sample.half wl = true
       /\ calls (snd run)
          = [ItBitGetWallets;
             ItBitPlaceOrder
               {| itbitapi.walletID := itbitapi.ID wl;
                  itbitapi.side := "Sell";
                  itbitapi.orderType := "Market";
                  itbitapi.currency := "BTC";
                  itbitapi.amount := Sample.half;
                  itbitapi.price := Sample.num 20000;
                  itbitapi.instrument := "BTCUSD";
                  itbitapi.clientRef := "" |}].
Proof.
  apply (ItBit_SubmitOrder_places_on_funded_wallet (Sample.itbit Sample.poor)
           Sample.btcusd exchange.Sell exchange.Market Sample.half (Sample.num 20000)
           "client-7" emptyWorld [Sample.walletPoor]).
  reflexivity.
Defined.

(** X18. When the wallet enumeration fails, [ItBit.SubmitOrder] returns the
    venue's error as it is, with the zero response, and stops: the
    wallets that came with the error are not searched and no
    placement request is sent. *)
Theorem ItBit_SubmitOrder_enumeration_failure :
  forall (i : ItBit.t) (p : pair.CurrencyPair) (side : exchange.OrderSide)
         (ty : exchange.OrderType) (amount price : float64) (clientID : string)
         (w : World) (wallets : list itbitapi.Wallet) (e : error),
    ItBit.walletsAnswer (ItBit.venue i) (calls w) = (wallets, Some e) ->
    ItBit.SubmitOrder i p side ty amount price clientID w
    = ((exchange.zeroSubmitOrderResponse, Some e), sent ItBitGetWallets w).
Proof.
  intros i p side ty amount price clientID w wallets e Hw.
  rewrite ItBit_SubmitOrder_eq, Hw. reflexivity.
Qed.

Lemma ItBit_SubmitOrder_enumeration_failure_witness :
  ItBit.SubmitOrder (Sample.itbit SampleOps.down) Sample.btcusd
    exchange.Buy exchange.Limit (Sample.num 1) (Sample.num 20000) "" emptyWorld
  = ((exchange.zeroSubmitOrderResponse, Some (VenueError "timeout")),
     sent ItBitGetWallets emptyWorld).
Proof.
  apply (ItBit_SubmitOrder_enumeration_failure (Sample.itbit SampleOps.down)
           Sample.btcusd exchange.Buy exchange.Limit (Sample.num 1) (Sample.num 20000)
           "" emptyWorld [] (VenueError "timeout")).
  reflexivity.
Defined.

(** ** Fetching twice, and what a call leaves alone *)

(** X20. [UpdateTicker] sends exactly one request in every state, cached
    key or not, and [FetchTicker] never sends more than one.  This
    holds for both adapters. *)
Theorem ticker_requests_per_call :
  forall (i : ItBit.t) (h : HUOBIHADAX.t) (p : pair.CurrencyPair)
         (a : assets.AssetType) (w : World),
    calls (snd (ItBit.UpdateTicker i p a w))
    = calls w ++ [ItBitGetTicker (exchange.FormatExchangeCurrency (ItBit.base i) p)]
    /\ calls (snd (HUOBIHADAX.UpdateTicker h p a w))
       = calls w
         ++ [HuobiGetMarketDetailMerged
               (exchange.FormatExchangeCurrency (HUOBIHADAX.base h) p)]
    /\ (calls (snd (ItBit.FetchTicker i p a w)) = calls w
        \/ calls (snd (ItBit.FetchTicker i p a w))
           = calls w ++ [ItBitGetTicker (exchange.FormatExchangeCurrency (ItBit.base i) p)])
    /\ (calls (snd (HUOBIHADAX.FetchTicker h p a w)) = calls w
        \/ calls (snd (HUOBIHADAX.FetchTicker h p a w))
           = calls w
             ++ [HuobiGetMarketDetailMerged
                   (exchange.FormatExchangeCurrency (HUOBIHADAX.base h) p)]).
Proof.
  intros i h p a w.
  split; [apply ItBit_UpdateTicker_calls|].
  split; [apply HUOBIHADAX_UpdateTicker_calls|].
  split.
  - unfold ItBit.FetchTicker, mbind, M_bind, cache.GetTicker.
    destruct (tickers w !! _); [now left|]. right. apply ItBit_UpdateTicker_calls.
  - unfold HUOBIHADAX.FetchTicker, mbind, M_bind, cache.GetTicker.
    destruct (tickers w !! _); [now left|]. right. apply HUOBIHADAX_UpdateTicker_calls.
Qed.

(** What [UpdateTicker] returns without error is what it stored. *)
Lemma ItBit_UpdateTicker_ok_stored i p a w r w1 :
  ItBit.UpdateTicker i p a w = ((r, None), w1) ->
  tickers w1 !! mkkey (ItBit.Name i) p a = Some r.
Proof.
  unfold ItBit.UpdateTicker, ItBit.GetTicker, rest, mbind, M_bind.
  destruct (ItBit.tickerAnswer _ _ _) as [tick [e|]]; [discriminate|].
  unfold cache.ProcessTicker, cache.GetTicker, ItBit.GetName, ItBit.Name, exchange.GetName.
  cbn [tickers]. rewrite lookup_insert_eq. intros H. injection H as <- <-.
  cbn. apply lookup_insert_eq.
Qed.

Lemma HUOBIHADAX_UpdateTicker_ok_stored h p a w r w1 :
  HUOBIHADAX.UpdateTicker h p a w = ((r, None), w1) ->
  tickers w1 !! mkkey (HUOBIHADAX.Name h) p a = Some r.
Proof.
  unfold HUOBIHADAX.UpdateTicker, HUOBIHADAX.GetMarketDetailMerged, rest, mbind, M_bind.
  destruct (HUOBIHADAX.detailMergedAnswer _ _ _) as [tick [e|]]; [discriminate|].
  unfold cache.ProcessTicker, cache.GetTicker, HUOBIHADAX.GetName, HUOBIHADAX.Name,
    exchange.GetName.
  cbn [tickers]. rewrite lookup_insert_eq. intros H. injection H as <- <-.
  cbn. apply lookup_insert_eq.
Qed.

(** X21. A [FetchTicker] that returned without error makes the next
    [FetchTicker] of the same key return the same snapshot and leave
    the world as it is: the second call sends no request.  This holds
    for both adapters. *)
Theorem FetchTicker_twice :
  forall (i : ItBit.t) (h : HUOBIHADAX.t) (p : pair.CurrencyPair)
         (a : assets.AssetType) (w w1 : World) (r : ticker.Price),
    (ItBit.FetchTicker i p a w = ((r, None), w1) ->
       ItBit.FetchTicker i p a w1 = ((r, None), w1))
    /\ (HUOBIHADAX.FetchTicker h p a w = ((r, None), w1) ->
          HUOBIHADAX.FetchTicker h p a w1 = ((r, None), w1)).
Proof.
  intros i h p a w w1 r. split.
  - intros H.
    assert (Hs : tickers w1 !! mkkey (ItBit.Name i) p a = Some r).
    { revert H. unfold ItBit.FetchTicker, mbind, M_bind, cache.GetTicker.
      unfold ItBit.GetName, exchange.GetName, ItBit.Name.
      destruct (tickers w !! _) as [t|] eqn:Ht.
      - intros H. injection H as <- <-. exact Ht.
      - apply ItBit_UpdateTicker_ok_stored. }
    unfold ItBit.FetchTicker, mbind, M_bind, ItBit.GetName, exchange.GetName.
    unfold ItBit.Name in Hs. now rewrite (cache_GetTicker_hit _ _ _ _ _ Hs).
  - intros H.
    assert (Hs : tickers w1 !! mkkey (HUOBIHADAX.Name h) p a = Some r).
    { revert H. unfold HUOBIHADAX.FetchTicker, mbind, M_bind, cache.GetTicker.
      unfold HUOBIHADAX.GetName, exchange.GetName, HUOBIHADAX.Name.
      destruct (tickers w !! _) as [t|] eqn:Ht.
      - intros H. injection H as <- <-. exact Ht.
      - apply HUOBIHADAX_UpdateTicker_ok_stored. }
    unfold HUOBIHADAX.FetchTicker, mbind, M_bind, HUOBIHADAX.GetName, exchange.GetName.
    unfold HUOBIHADAX.Name in Hs. now rewrite (cache_GetTicker_hit _ _ _ _ _ Hs).
Qed.

Lemma FetchTicker_twice_witness :
  let i := Sample.itbit Sample.accepting in
  let h := Sample.huobi Sample.huobiAccepting in
  let first := ItBit.FetchTicker i Sample.btcusd assets.AssetTypeSpot emptyWorld in
  let first' := HUOBIHADAX.FetchTicker h Sample.btcusd assets.AssetTypeSpot emptyWorld in
  ItBit.FetchTicker i Sample.btcusd assets.AssetTypeSpot (snd first)
  = ((fst (fst first), None), snd first)
  /\ HUOBIHADAX.FetchTicker h Sample.btcusd assets.AssetTypeSpot (snd first')
     = ((fst (fst first'), None), snd first').
Proof.
  intros i h first first'.
  destruct (FetchTicker_twice i h Sample.btcusd assets.AssetTypeSpot emptyWorld
              (snd first) (fst (fst first))) as [Hi _].
  destruct (FetchTicker_twice i h Sample.btcusd assets.AssetTypeSpot emptyWorld
              (snd first') (fst (fst first'))) as [_ Hh].
  split.
  - apply Hi. vm_compute. reflexivity.
  - apply Hh. vm_compute. reflexivity.
Defined.

(** X22. Submitting an order leaves the market data alone: on both adapters
    the ticker store, the order-book store and the log after
    [SubmitOrder] are those before it, in every run. *)
Theorem SubmitOrder_leaves_market_data :
  forall (i : ItBit.t) (h : HUOBIHADAX.t) (p : pair.CurrencyPair)
         (side : exchange.OrderSide) (ty : exchange.OrderType)
         (amount price : float64) (clientID : string) (w : World),
    let wi := snd (ItBit.SubmitOrder i p side ty amount price clientID w) in
    let wh := snd (HUOBIHADAX.SubmitOrder h p side ty amount price clientID w) in
    tickers wi = tickers w /\ orderbooks wi = orderbooks w /\ logged wi = logged w
    /\ tickers wh = tickers w /\ orderbooks wh = orderbooks w /\ logged wh = logged w
    /\ (length (calls wi) <= length (calls w) + 2)%nat
    /\ (length (calls wh) <= length (calls w) + 1)%nat.
Proof.
  intros i h p side ty amount price clientID w wi wh.
  assert (Hi : tickers wi = tickers w /\ orderbooks wi = orderbooks w
               /\ logged wi = logged w
               /\ (length (calls wi) <= length (calls w) + 2)%nat).
  { subst wi. rewrite ItBit_SubmitOrder_eq. cbn zeta.
    destruct (ItBit.walletsAnswer _ _) as [wallets [e|]].
    - cbn. rewrite length_app. cbn. repeat split; lia.
    - destruct (String.eqb _ "").
      + cbn. rewrite length_app. cbn. repeat split; lia.
      + destruct (ItBit.placeOrderAnswer _ _ _) as [response err]. cbn.
        rewrite !length_app. cbn. repeat split; lia. }
  assert (Hh : tickers wh = tickers w /\ orderbooks wh = orderbooks w
               /\ logged wh = logged w
               /\ (length (calls wh) <= length (calls w) + 1)%nat).
  { subst wh. destruct (inMatrix side ty) eqn:Hin.
    - rewrite (HUOBIHADAX_SubmitOrder_eq _ _ _ _ _ _ _ _ Hin). cbn zeta.
      destruct (HUOBIHADAX.spotNewOrderAnswer _ _ _) as [response err]. cbn.
      rewrite length_app. cbn. repeat split; lia.
    - unfold HUOBIHADAX.SubmitOrder.
      destruct (strconv.ParseInt clientID) as [accountID perr].
      rewrite (formatType_None _ _ _ _ Hin). cbn. repeat split; lia. }
  destruct Hi as (? & ? & ? & ?), Hh as (? & ? & ? & ?). repeat split; assumption.
Qed.
